(** * codefixer: a shallow embedding of [main.py]

    The program sends a source file to a local LLM server, prints the
    suggested fix and, after confirmation, replaces the file, keeping a
    time-stamped backup.  Everything it does is an effect: HTTP requests,
    console input and output, the clock, the file system, exceptions and
    the exit status.  The embedding threads a [world] through a small
    state-and-exception monad and follows [main.py] function by function.

    Modelling choices, stated once:
    - a Python [str] is a Rocq [string] read as a sequence of code points
      below 256 (Latin-1); [strip] and [lower] follow Python on that range;
    - the file system is a finite map from paths to text contents, with the
      POSIX meaning of [os.rename] (an existing destination is replaced) and
      of text mode (line ends are translated on reading, not on writing);
      permissions, directories and encodings are not modelled;
    - the server is a function from requests to outcomes; a failed request
      raises a [requests.RequestException], as the library documents;
    - [json.loads] and [repr] are library functions, taken as parameters. *)

From Stdlib Require Import ZArith Ascii String DecimalString List.
From Stdlib Require DecimalZ DecimalPos.
From stdpp Require Import base strings gmap list.

Open Scope string_scope.
Open Scope Z_scope.

(** ** Python values *)

(** The values [json.loads] can produce.  An object is the list of the
    items of the resulting [dict]; a float is kept as the text Python
    prints for it. *)
#[warnings="-register-all"]
Inductive json : Type :=
  | JNull
  | JBool (b : bool)
  | JInt (z : Z)
  | JFloat (text : string)
  | JStr (s : string)
  | JArr (items : list json)
  | JObj (items : list (string * json)).

Fixpoint dict_get (k : string) (items : list (string * json)) : option json :=
  match items with
  | [] => None
  | (k', v) :: rest => if String.eqb k k' then Some v else dict_get k rest
  end.

(** ** Exceptions *)

Inductive exn : Type :=
  | PyException (msg : string)          (* raise Exception(msg) *)
  | RequestException (msg : string)     (* requests: connection, timeout, ... *)
  | RequestsJSONDecodeError (doc : string) (* response.json(), bad body *)
  | JSONDecodeError (doc : string)      (* json.loads on a bad text *)
  | KeyError (key : json)
  | IndexError (msg : string)
  | TypeError (msg : string)
  | FileNotFoundError (filename : string) (filename2 : option string)
  | EOFError
  | SystemExit (code : Z).

(** [except Exception] catches everything but [SystemExit]. *)
Definition is_Exception (e : exn) : bool :=
  match e with
  | SystemExit _ => false
  | _ => true
  end.

(** [except requests.RequestException]. *)
Definition is_RequestException (e : exn) : bool :=
  match e with
  | RequestException _ | RequestsJSONDecodeError _ => true
  | _ => false
  end.

Inductive result (A : Type) : Type :=
  | Ok (a : A)
  | Raise (e : exn).
Arguments Ok {A} a.
Arguments Raise {A} e.

(** ** Text helpers *)

Definition nl : string := String (ascii_of_nat 10) "".

(** [str(n)] for an [int]. *)
Definition str_int (z : Z) : string := NilZero.string_of_int (Z.to_int z).

(** Python's [str.isspace] on code points below 256. *)
Definition is_space (c : ascii) : bool :=
  let n := nat_of_ascii c in
  ((9 <=? n)%nat && (n <=? 13)%nat) || ((28 <=? n)%nat && (n <=? 32)%nat)
  || (n =? 133)%nat || (n =? 160)%nat.

Fixpoint lstrip (s : string) : string :=
  match s with
  | EmptyString => EmptyString
  | String c s' => if is_space c then lstrip s' else s
  end.

Fixpoint rstrip (s : string) : string :=
  match s with
  | EmptyString => EmptyString
  | String c s' =>
      match rstrip s' with
      | EmptyString => if is_space c then EmptyString else String c EmptyString
      | r => String c r
      end
  end.

(** [s.strip()] *)
Definition strip (s : string) : string := rstrip (lstrip s).

Definition lower_char (c : ascii) : ascii :=
  let n := nat_of_ascii c in
  if ((65 <=? n)%nat && (n <=? 90)%nat)
     || ((192 <=? n)%nat && (n <=? 222)%nat && negb (n =? 215)%nat)
  then ascii_of_nat (n + 32) else c.

(** [s.lower()] *)
Fixpoint lower (s : string) : string :=
  match s with
  | EmptyString => EmptyString
  | String c s' => String (lower_char c) (lower s')
  end.

(** ** The clock *)

(** The fields of [time.localtime()] that the format uses. *)
Record tm : Type := mkTm {
  tm_year : Z; tm_mon : Z; tm_mday : Z;
  tm_hour : Z; tm_min : Z; tm_sec : Z
}.

Definition pad2 (z : Z) : string :=
  if z <? 10 then "0" +:+ str_int z else str_int z.

(** [time.strftime('%Y%m%d%H%M%S')] *)
Definition strftime_YmdHMS (t : tm) : string :=
  str_int (tm_year t) +:+ pad2 (tm_mon t) +:+ pad2 (tm_mday t)
  +:+ pad2 (tm_hour t) +:+ pad2 (tm_min t) +:+ pad2 (tm_sec t).

(** ** HTTP *)

Inductive request : Type :=
  | Get (url : string) (timeout : Z)
  | Post (url : string) (body : json) (timeout : Z).

Record response : Type := mkResponse {
  status_code : Z;
  text : string
}.

Inductive http_outcome : Type :=
  | Answered (r : response)
  | Failed (msg : string).

(** ** The world *)

Inductive fs_event : Type :=
  | EvRename (src dst : string)
  | EvOpenW (path : string)
  | EvWrite (path : string) (data : string).

Record world : Type := mkWorld {
  fs : gmap string string;          (* path -> content *)
  fs_log : list fs_event;           (* file-system changes, oldest first *)
  stdin : list string;              (* lines still to be typed *)
  stdout : list string;             (* chunks written, oldest first *)
  argv : list string;               (* sys.argv *)
  clock : tm;
  server : request -> http_outcome;
  requests : list request           (* requests issued, oldest first *)
}.

Definition set_fs (f : gmap string string) (ev : list fs_event) (w : world) : world :=
  mkWorld f (fs_log w ++ ev) (stdin w) (stdout w) (argv w) (clock w)
          (server w) (requests w).

Definition set_stdin (l : list string) (w : world) : world :=
  mkWorld (fs w) (fs_log w) l (stdout w) (argv w) (clock w)
          (server w) (requests w).

Definition add_stdout (s : string) (w : world) : world :=
  mkWorld (fs w) (fs_log w) (stdin w) (stdout w ++ [s]) (argv w) (clock w)
          (server w) (requests w).

Definition add_request (r : request) (w : world) : world :=
  mkWorld (fs w) (fs_log w) (stdin w) (stdout w) (argv w) (clock w)
          (server w) (requests w ++ [r]).

(** ** The monad: state and exceptions *)

Definition M (A : Type) : Type := world -> result A * world.

Definition ret {A} (a : A) : M A := fun w => (Ok a, w).

Definition bind {A B} (m : M A) (k : A -> M B) : M B :=
  fun w =>
    match m w with
    | (Ok a, w') => k a w'
    | (Raise e, w') => (Raise e, w')
    end.

Definition raise {A} (e : exn) : M A := fun w => (Raise e, w).

Definition lift {A} (r : result A) : M A := fun w => (r, w).

(** [try: body  except C as e: handler e], [C] given by [catches]. *)
Definition try_except {A} (catches : exn -> bool) (body : M A)
    (handler : exn -> M A) : M A :=
  fun w =>
    match body w with
    | (Raise e, w') => if catches e then handler e w' else (Raise e, w')
    | r => r
    end.

Declare Scope py_scope.
Delimit Scope py_scope with py.
Notation "'let*' x ':=' m 'in' k" := (bind m (fun x => k))
  (at level 10, x name, m at level 100, k at level 200) : py_scope.
Notation "m '>>' k" := (bind m (fun _ => k))
  (at level 65, right associativity) : py_scope.
Open Scope py_scope.

(** ** Library primitives *)

(** [print(s)] *)
Definition print (s : string) : M unit :=
  fun w => (Ok tt, add_stdout (s +:+ nl) w).

(** [input(prompt)]: the prompt is written, one line is read; at end of
    input Python raises [EOFError]. *)
Definition input (prompt : string) : M string :=
  fun w =>
    let w1 := add_stdout prompt w in
    match stdin w1 with
    | [] => (Raise EOFError, w1)
    | line :: rest => (Ok line, set_stdin rest w1)
    end.

(** [sys.exit(code)] *)
Definition sys_exit {A} (code : Z) : M A := raise (SystemExit code).

Definition get_argv : M (list string) := fun w => (Ok (argv w), w).

Definition time_strftime_YmdHMS : M string :=
  fun w => (Ok (strftime_YmdHMS (clock w)), w).

(** A request is logged, then answered by the server; a failure of the
    transport surfaces as a [RequestException]. *)
Definition send (r : request) : M response :=
  fun w =>
    let w1 := add_request r w in
    match server w r with
    | Answered resp => (Ok resp, w1)
    | Failed msg => (Raise (RequestException msg), w1)
    end.

Definition requests_get (url : string) (timeout : Z) : M response :=
  send (Get url timeout).

Definition requests_post (url : string) (body : json) (timeout : Z) : M response :=
  send (Post url body timeout).

(** What a file opened in text mode gives on reading: every line end,
    CR LF or a lone CR, is read as LF. *)
Fixpoint universal_newlines (s : string) : string :=
  match s with
  | EmptyString => EmptyString
  | String c rest =>
      if (nat_of_ascii c =? 13)%nat then
        match rest with
        | String d rest' =>
            if (nat_of_ascii d =? 10)%nat
            then String (ascii_of_nat 10) (universal_newlines rest')
            else String (ascii_of_nat 10) (universal_newlines rest)
        | EmptyString => String (ascii_of_nat 10) EmptyString
        end
      else String c (universal_newlines rest)
  end.

(** [open(path, "r", encoding="utf-8").read()] *)
Definition read_file (path : string) : M string :=
  fun w =>
    match fs w !! path with
    | Some content => (Ok (universal_newlines content), w)
    | None =>
        (Raise (FileNotFoundError path None), w)
    end.

(** [os.rename(src, dst)], POSIX: [dst] is replaced when it exists. *)
Definition os_rename (src dst : string) : M unit :=
  fun w =>
    match fs w !! src with
    | Some content =>
        (Ok tt, set_fs (<[dst := content]> (delete src (fs w)))
                       [EvRename src dst] w)
    | None =>
        (Raise (FileNotFoundError src (Some dst)), w)
    end.

(** [open(path, "w", encoding="utf-8")]: the file is created or emptied. *)
Definition open_w (path : string) : M unit :=
  fun w => (Ok tt, set_fs (<[path := ""]> (fs w)) [EvOpenW path] w).

(** [type(v).__name__] *)
Definition type_name (v : json) : string :=
  match v with
  | JNull => "NoneType"
  | JBool _ => "bool"
  | JInt _ => "int"
  | JFloat _ => "float"
  | JStr _ => "str"
  | JArr _ => "list"
  | JObj _ => "dict"
  end.

(** [f.write(v)] on the file opened at [path]; only a [str] is accepted.
    The text is appended to what the file holds since it was opened. *)
Definition file_write (path : string) (v : json) : M unit :=
  fun w =>
    match v with
    | JStr s =>
        let old := default "" (fs w !! path) in
        (Ok tt, set_fs (<[path := old +:+ s]> (fs w)) [EvWrite path s] w)
    | _ => (Raise (TypeError ("write() argument must be str, not "
                              +:+ type_name v)), w)
    end.

(** [v[k]] for a string key [k]. *)
Definition getitem (v : json) (k : string) : result json :=
  match v with
  | JObj items =>
      match dict_get k items with
      | Some x => Ok x
      | None => Raise (KeyError (JStr k))
      end
  | JArr _ => Raise (TypeError "list indices must be integers or slices, not str")
  | JStr _ => Raise (TypeError "string indices must be integers, not 'str'")
  | JNull => Raise (TypeError "'NoneType' object is not subscriptable")
  | JBool _ => Raise (TypeError "'bool' object is not subscriptable")
  | JInt _ => Raise (TypeError "'int' object is not subscriptable")
  | JFloat _ => Raise (TypeError "'float' object is not subscriptable")
  end.

(** [v[i]] for a non-negative integer [i]. *)
Definition getitem_int (v : json) (i : nat) : result json :=
  match v with
  | JArr items =>
      match items !! i with
      | Some x => Ok x
      | None => Raise (IndexError "list index out of range")
      end
  | JStr s =>
      match String.get i s with
      | Some c => Ok (JStr (String c ""))
      | None => Raise (IndexError "string index out of range")
      end
  | JObj _ => Raise (KeyError (JInt (Z.of_nat i)))
  | JNull => Raise (TypeError "'NoneType' object is not subscriptable")
  | JBool _ => Raise (TypeError "'bool' object is not subscriptable")
  | JInt _ => Raise (TypeError "'int' object is not subscriptable")
  | JFloat _ => Raise (TypeError "'float' object is not subscriptable")
  end.

(** [sys.argv[i]] *)
Definition argv_get (args : list string) (i : nat) : result string :=
  match args !! i with
  | Some a => Ok a
  | None => Raise (IndexError "list index out of range")
  end.

(** ** The program *)

Definition BASE_URL : string := "http://localhost:1234/v1".
Definition MODEL_NAME : string := "llama-3.2-1b-instruct".
Definition API_TIMEOUT : Z := 120.

(** The two requests the program can issue. *)
Definition health_request : request := Get (BASE_URL +:+ "/models") 5.

Definition check_server_available : M bool :=
  try_except is_RequestException
    (let* response := requests_get (BASE_URL +:+ "/models") 5 in
     ret (status_code response =? 200))
    (fun _ => ret false).

Definition tools : json :=
  JArr [
    JObj [
      ("type", JStr "function");
      ("function", JObj [
        ("name", JStr "perform_code_analysis");
        ("description", JStr "Analyzes code for errors and suggests fixes");
        ("parameters", JObj [
          ("type", JStr "object");
          ("properties", JObj [
            ("code", JObj [("type", JStr "string");
                           ("description", JStr "The code to analyze")]);
            ("language", JObj [
              ("type", JStr "string");
              ("description", JStr "Programming language of the code");
              ("enum", JArr [JStr "python"; JStr "go"; JStr "javascript";
                             JStr "java"; JStr "c++"])
            ])
          ]);
          ("required", JArr [JStr "code"; JStr "language"])
        ])
      ])
    ]
  ].

Definition request_data (code : string) : json :=
  JObj [
    ("model", JStr MODEL_NAME);
    ("messages", JArr [
      JObj [("role", JStr "system");
            ("content", JStr "You are an expert code debugging assistant.")];
      JObj [("role", JStr "user");
            ("content", JStr ("Analyze and fix this code:" +:+ nl +:+ "```"
                              +:+ nl +:+ code +:+ nl +:+ "```"))]
    ]);
    ("tools", tools);
    ("response_format", JObj [
      ("type", JStr "json_schema");
      ("json_schema", JObj [
        ("schema", JObj [
          ("type", JStr "object");
          ("properties", JObj [
            ("original_code", JObj [("type", JStr "string")]);
            ("fixed_code", JObj [("type", JStr "string")]);
            ("explanation", JObj [("type", JStr "string")]);
            ("language", JObj [("type", JStr "string")]);
            ("error_type", JObj [("type", JStr "string")])
          ]);
          ("required", JArr [JStr "fixed_code"; JStr "explanation";
                             JStr "language"; JStr "error_type"])
        ])
      ])
    ]);
    ("temperature", JFloat "0.3");
    ("stream", JBool false)
  ].

(** ** Sample data

    Texts and values used by the worked examples: the payload of section 8
    of the specification, a payload with all five fields, and the bodies
    that carry them. *)

Definition dq : string := String (ascii_of_nat 34) "".
Definition bs : string := String (ascii_of_nat 92) "".

Definition quoted (s : string) : string := dq +:+ s +:+ dq.

(** A JSON member ["k": "v"] for plain [k] and [v]. *)
Definition member (k v : string) : string := quoted k +:+ ": " +:+ quoted v.

(** The same member inside a JSON string: every quote is escaped. *)
Definition member_esc (k v : string) : string :=
  bs +:+ dq +:+ k +:+ bs +:+ dq +:+ ": " +:+ bs +:+ dq +:+ v +:+ bs +:+ dq.

Definition sample_broken : string := "def f(x): return x+".
Definition sample_fixed : string := "def f(x): return x".

Definition sample_fix : json :=
  JObj [("fixed_code", JStr sample_fixed);
        ("explanation", JStr "removed trailing operator");
        ("language", JStr "python");
        ("error_type", JStr "SyntaxError")].

Definition sample_fix_text : string :=
  "{" +:+ member "fixed_code" sample_fixed +:+ ", "
  +:+ member "explanation" "removed trailing operator" +:+ ", "
  +:+ member "language" "python" +:+ ", "
  +:+ member "error_type" "SyntaxError" +:+ "}".

Definition sample_fix_text_esc : string :=
  "{" +:+ member_esc "fixed_code" sample_fixed +:+ ", "
  +:+ member_esc "explanation" "removed trailing operator" +:+ ", "
  +:+ member_esc "language" "python" +:+ ", "
  +:+ member_esc "error_type" "SyntaxError" +:+ "}".

Definition full_fix : json :=
  JObj [("original_code", JStr sample_broken);
        ("fixed_code", JStr sample_fixed);
        ("explanation", JStr "removed trailing operator");
        ("language", JStr "python");
        ("error_type", JStr "SyntaxError")].

Definition full_fix_text : string :=
  "{" +:+ member "original_code" sample_broken +:+ ", "
  +:+ member "fixed_code" sample_fixed +:+ ", "
  +:+ member "explanation" "removed trailing operator" +:+ ", "
  +:+ member "language" "python" +:+ ", "
  +:+ member "error_type" "SyntaxError" +:+ "}".

Definition full_fix_text_esc : string :=
  "{" +:+ member_esc "original_code" sample_broken +:+ ", "
  +:+ member_esc "fixed_code" sample_fixed +:+ ", "
  +:+ member_esc "explanation" "removed trailing operator" +:+ ", "
  +:+ member_esc "language" "python" +:+ ", "
  +:+ member_esc "error_type" "SyntaxError" +:+ "}".

(** A result with the five fields whose "fixed_code" is the number 42. *)
Definition number_fix : json :=
  JObj [("original_code", JStr sample_broken);
        ("fixed_code", JInt 42);
        ("explanation", JStr "removed trailing operator");
        ("language", JStr "python");
        ("error_type", JStr "SyntaxError")].

Definition number_fix_text : string :=
  "{" +:+ member "original_code" sample_broken +:+ ", "
  +:+ quoted "fixed_code" +:+ ": 42, "
  +:+ member "explanation" "removed trailing operator" +:+ ", "
  +:+ member "language" "python" +:+ ", "
  +:+ member "error_type" "SyntaxError" +:+ "}".

Definition number_fix_text_esc : string :=
  "{" +:+ member_esc "original_code" sample_broken +:+ ", "
  +:+ bs +:+ dq +:+ "fixed_code" +:+ bs +:+ dq +:+ ": 42, "
  +:+ member_esc "explanation" "removed trailing operator" +:+ ", "
  +:+ member_esc "language" "python" +:+ ", "
  +:+ member_esc "error_type" "SyntaxError" +:+ "}".

(** A chat-completions body whose first choice carries [content_esc]. *)
Definition chat_body_text (content_esc : string) : string :=
  "{" +:+ quoted "choices" +:+ ": [{" +:+ quoted "message" +:+ ": {"
  +:+ member "content" content_esc +:+ "}}]}".

Definition chat_body (content : string) : json :=
  JObj [("choices", JArr [JObj [("message", JObj [("content", JStr content)])]])].

Definition no_choices_text : string := "{" +:+ member "error" "overloaded" +:+ "}".
Definition no_choices : json := JObj [("error", JStr "overloaded")].

Definition no_choices_text_esc : string :=
  "{" +:+ member_esc "error" "overloaded" +:+ "}".

Definition not_json_text : string := "Sorry, I cannot help with that.".

(** [json.loads] on the sample texts; no example parses any other text. *)
Definition sample_loads_table : list (string * json) :=
  [ (sample_fix_text, sample_fix);
    (full_fix_text, full_fix);
    (chat_body_text sample_fix_text_esc, chat_body sample_fix_text);
    (chat_body_text full_fix_text_esc, chat_body full_fix_text);
    (chat_body_text not_json_text, chat_body not_json_text);
    (chat_body_text no_choices_text_esc, chat_body no_choices_text);
    (no_choices_text, no_choices) ].

Definition sample_loads (s : string) : option json :=
  dict_get s sample_loads_table.

(** [json.loads] on the texts of the number example. *)
Definition number_loads (s : string) : option json :=
  dict_get s [ (number_fix_text, number_fix);
               (chat_body_text number_fix_text_esc, chat_body number_fix_text) ].

(** A file with the three kinds of line end, and what reading it gives. *)
Definition mixed_line_ends : string :=
  "a" +:+ String (ascii_of_nat 13) nl +:+ "b" +:+ String (ascii_of_nat 13) ""
  +:+ "c" +:+ nl.

Definition sample_error_msg (doc : string) : string :=
  "Expecting value: line 1 column 1 (char 0)".

Fixpoint join_comma (l : list string) : string :=
  match l with
  | [] => ""
  | [x] => x
  | x :: rest => x +:+ ", " +:+ join_comma rest
  end.

(** [repr] on values whose strings need no escaping. *)
Fixpoint plain_repr (v : json) : string :=
  match v with
  | JNull => "None"
  | JBool true => "True"
  | JBool false => "False"
  | JInt z => str_int z
  | JFloat t => t
  | JStr s => "'" +:+ s +:+ "'"
  | JArr items => "[" +:+ join_comma (map plain_repr items) +:+ "]"
  | JObj items =>
      "{" +:+ join_comma (map (fun p => match p with
                                        | (k, x) => "'" +:+ k +:+ "': " +:+ plain_repr x
                                        end) items) +:+ "}"
  end.

(** A server that is up and answers every analysis request with [answer]. *)
Definition sample_server (answer : http_outcome) (r : request) : http_outcome :=
  match r with
  | Get _ _ => Answered (mkResponse 200 "{}")
  | Post _ _ _ => answer
  end.

(** The answer with status 200 whose first choice carries [content_esc]. *)
Definition chat_answer (content_esc : string) : http_outcome :=
  Answered (mkResponse 200 (chat_body_text content_esc)).

(** A server that cannot be reached. *)
Definition down_server (r : request) : http_outcome :=
  Failed "Connection refused".

Definition sample_clock : tm := mkTm 2025 3 14 9 26 53.

(** [codefixer.py buggy.py], with [typed] on the console. *)
Definition sample_world (srv : request -> http_outcome) (typed : list string) : world :=
  mkWorld {[ "buggy.py" := sample_broken ]} [] typed []
          ["codefixer.py"; "buggy.py"] sample_clock srv [].

Definition analysis_request (code : string) : request :=
  Post (BASE_URL +:+ "/chat/completions") (request_data code) API_TIMEOUT.

(** The name [validate_and_save] gives the backup made at time [t]. *)
Definition backup_name (filename : string) (t : tm) : string :=
  filename +:+ "." +:+ strftime_YmdHMS t +:+ ".bak".

(** [k in v] for a value used as a mapping: only an object has fields. *)
Definition has_field (v : json) (k : string) : bool :=
  match v with
  | JObj items => bool_decide (is_Some (dict_get k items))
  | _ => false
  end.

(** A string made of white space only. *)
Fixpoint blank (s : string) : bool :=
  match s with
  | EmptyString => true
  | String c s' => is_space c && blank s'
  end.

(** The ways a chat-completions body can miss [choices[0].message.content]:
    no "choices", an empty list of choices, a first choice without
    "message", a message without "content". *)
Inductive misshapen : json -> Prop :=
  | no_choices_key items :
      dict_get "choices" items = None -> misshapen (JObj items)
  | empty_choices items :
      dict_get "choices" items = Some (JArr []) -> misshapen (JObj items)
  | no_message_key items fields others :
      dict_get "choices" items = Some (JArr (JObj fields :: others)) ->
      dict_get "message" fields = None ->
      misshapen (JObj items)
  | no_content_key items fields others mfields :
      dict_get "choices" items = Some (JArr (JObj fields :: others)) ->
      dict_get "message" fields = Some (JObj mfields) ->
      dict_get "content" mfields = None ->
      misshapen (JObj items).

Section Program.

(** [json.loads] on a text ([None]: the text is not JSON), the message of
    the decode error, and [repr] on values. *)
Variable json_loads : string -> option json.
Variable json_error_msg : string -> string.
Variable py_repr : json -> string.

(** [str(v)] *)
Definition py_str (v : json) : string :=
  match v with
  | JStr s => s
  | _ => py_repr v
  end.

(** [str(e)] *)
Definition str_exn (e : exn) : string :=
  match e with
  | PyException msg | RequestException msg => msg
  | RequestsJSONDecodeError doc | JSONDecodeError doc => json_error_msg doc
  | KeyError key => py_repr key
  | IndexError msg | TypeError msg => msg
  | FileNotFoundError f None =>
      "[Errno 2] No such file or directory: " +:+ py_repr (JStr f)
  | FileNotFoundError f (Some g) =>
      "[Errno 2] No such file or directory: " +:+ py_repr (JStr f)
      +:+ " -> " +:+ py_repr (JStr g)
  | EOFError => "EOF when reading a line"
  | SystemExit code => str_int code
  end.

(** [response.json()] *)
Definition response_json (r : response) : result json :=
  match json_loads (text r) with
  | Some v => Ok v
  | None => Raise (RequestsJSONDecodeError (text r))
  end.

(** [json.loads(v)] *)
Definition json_loads_value (v : json) : result json :=
  match v with
  | JStr s =>
      match json_loads s with
      | Some x => Ok x
      | None => Raise (JSONDecodeError s)
      end
  | _ => Raise (TypeError ("the JSON object must be str, bytes or bytearray, not "
                           +:+ type_name v))
  end.

Definition analyze_and_fix_code (code : string) : M json :=
  let* response := requests_post (BASE_URL +:+ "/chat/completions")
                                 (request_data code) API_TIMEOUT in
  if negb (status_code response =? 200) then
    raise (PyException ("API request failed: "
                        +:+ str_int (status_code response)
                        +:+ nl +:+ text response))
  else
    let* data := lift (response_json response) in
    let* choices := lift (getitem data "choices") in
    let* choice := lift (getitem_int choices 0) in
    let* message := lift (getitem choice "message") in
    let* content := lift (getitem message "content") in
    lift (json_loads_value content).

(** The content of a chat message that cannot become an analysis result:
    a text that is not JSON, or JSON without the field "fixed_code". *)
Inductive malformed : json -> Prop :=
  | not_json s : json_loads s = None -> malformed (JStr s)
  | no_fixed_code s v :
      json_loads s = Some v -> has_field v "fixed_code" = false ->
      malformed (JStr s).

(** Lines 91-98 of [validate_and_save]: what follows the confirmation. *)
Definition persist (filename : string) (fix_ : json) : M unit :=
  let* stamp := time_strftime_YmdHMS in
  let backup_filename := filename +:+ "." +:+ stamp +:+ ".bak" in
  os_rename filename backup_filename >>
  print ("Backup saved to " +:+ backup_filename) >>
  open_w filename >>
  let* fixed_code := lift (getitem fix_ "fixed_code") in
  file_write filename fixed_code >>
  print "Update successful!".

Definition confirm_prompt : string := nl +:+ "Apply these changes? [y/N]: ".

Definition validate_and_save (filename : string) (fix_ : json) : M unit :=
  let* line := input confirm_prompt in
  let confirmation := lower (strip line) in
  if negb (confirmation =? "y")%string then
    print "Operation cancelled."
  else
    persist filename fix_.

(** Lines 120-128 of [main]: the report. *)
Definition report (fix_ : json) : M unit :=
  print (nl +:+ "=== Code Fix Report ===") >>
  let* language := lift (getitem fix_ "language") in
  print ("Language: " +:+ py_str language) >>
  let* error_type := lift (getitem fix_ "error_type") in
  print ("Error Type: " +:+ py_str error_type) >>
  print (nl +:+ "Original Code:") >>
  let* original_code := lift (getitem fix_ "original_code") in
  print (py_str original_code) >>
  print (nl +:+ "Fixed Code:") >>
  let* fixed_code := lift (getitem fix_ "fixed_code") in
  print (py_str fixed_code) >>
  print (nl +:+ "Explanation:") >>
  let* explanation := lift (getitem fix_ "explanation") in
  print (py_str explanation).

(** The body of the second [try] of [main] and its handler. *)
Definition fix_and_save (filename content : string) : M unit :=
  let* fix_ := analyze_and_fix_code content in
  report fix_ >>
  validate_and_save filename fix_.

Definition fix_failed (e : exn) : M unit :=
  print ("Error fixing code: " +:+ str_exn e) >> sys_exit 1.

Definition main : M unit :=
  let* available := check_server_available in
  (if negb available then
     print ("LM Studio server not available. Please ensure it's running at "
            +:+ BASE_URL) >>
     sys_exit 1
   else ret tt) >>
  let* args := get_argv in
  (if (length args <? 2)%nat then
     print "Usage: codefixer.py <filename>" >> sys_exit 1
   else ret tt) >>
  let* filename := lift (argv_get args 1) in
  let* content :=
    try_except is_Exception (read_file filename)
      (fun e => print ("Error reading file: " +:+ str_exn e) >> sys_exit 1) in
  try_except is_Exception (fix_and_save filename content) fix_failed.

(** The script: [main()] under the interpreter.  A normal return is exit
    status 0, [sys.exit(c)] is status [c], any other uncaught exception
    ends the interpreter with status 1. *)
Definition run_script (w : world) : Z * world :=
  match main w with
  | (Ok _, w') => (0, w')
  | (Raise (SystemExit code), w') => (code, w')
  | (Raise _, w') => (1, w')
  end.

(** ** Actions that leave the files alone *)

(** [quiet m]: running [m] changes no file, and whatever [m] raises is an
    [Exception]. *)
Definition quiet {A} (m : M A) : Prop :=
  forall w r w', m w = (r, w') ->
    fs w' = fs w /\ fs_log w' = fs_log w /\
    forall e, r = Raise e -> is_Exception e = true.

(** The server is up, a file is named and it can be read: the run reaches
    the analysis. *)
Record ready (w : world) (filename content : string) : Prop := mkReady {
  ready_server : exists r, server w health_request = Answered r
                           /\ status_code r = 200;
  ready_argv : exists prog rest, argv w = prog :: filename :: rest;
  ready_file : fs w !! filename = Some content
}.

(** The server answers the analysis of [code] with status 200 and a body
    of the expected shape, whose content is the JSON text of [fix_]. *)
Definition answers_with (w : world) (code : string) (fix_ : json) : Prop :=
  exists r data choices choice message s,
    server w (analysis_request code) = Answered r /\
    status_code r = 200 /\
    json_loads (text r) = Some data /\
    getitem data "choices" = Ok choices /\
    getitem_int choices 0 = Ok choice /\
    getitem choice "message" = Ok message /\
    getitem message "content" = Ok (JStr s) /\
    json_loads s = Some fix_.

(** What the report writes for the five values, in the order of lines
    120-128. *)
Definition report_lines (language error_type original_code fixed_code
    explanation : json) : list string :=
  [ (nl +:+ "=== Code Fix Report ===") +:+ nl;
    ("Language: " +:+ py_str language) +:+ nl;
    ("Error Type: " +:+ py_str error_type) +:+ nl;
    (nl +:+ "Original Code:") +:+ nl;
    py_str original_code +:+ nl;
    (nl +:+ "Fixed Code:") +:+ nl;
    py_str fixed_code +:+ nl;
    (nl +:+ "Explanation:") +:+ nl;
    py_str explanation +:+ nl ].

(** [only_prints m]: running [m] changes nothing but the console output. *)
Definition only_prints {A} (m : M A) : Prop :=
  forall w r w', m w = (r, w') ->
    fs w' = fs w /\ fs_log w' = fs_log w /\ stdin w' = stdin w /\
    clock w' = clock w /\ argv w' = argv w /\ server w' = server w /\
    requests w' = requests w.

(** [no_request m]: running [m] sends nothing to the server. *)
Definition no_request {A} (m : M A) : Prop :=
  forall w r w', m w = (r, w') -> requests w' = requests w.

(** Decimal digits, and the calendar times [time.localtime()] can give
    (years of four digits; [tm_sec] goes up to 61 in Python). *)
Definition is_digit (c : ascii) : bool :=
  let n := nat_of_ascii c in ((48 <=? n)%nat && (n <=? 57)%nat).

Fixpoint all_digits (s : string) : bool :=
  match s with
  | EmptyString => true
  | String c s' => is_digit c && all_digits s'
  end.

Record valid_tm (t : tm) : Prop := mkValidTm {
  valid_year : 1000 <= tm_year t <= 9999;
  valid_mon : 1 <= tm_mon t <= 12;
  valid_mday : 1 <= tm_mday t <= 31;
  valid_hour : 0 <= tm_hour t <= 23;
  valid_min : 0 <= tm_min t <= 59;
  valid_sec : 0 <= tm_sec t <= 61
}.

(** [int(s)] for a decimal text, 0 standing for [ValueError]; used to read
    back what [str_int] and [pad2] print. *)
Definition int_of_text (s : string) : Z :=
  match NilZero.int_of_string s with
  | Some d => Z.of_int d
  | None => 0
  end.

Lemma quiet_ret {A} (a : A) : quiet (ret a).
Proof. intros w r w' [= <- <-]. by repeat split. Qed.

Lemma quiet_raise {A} (e : exn) : is_Exception e = true -> quiet (@raise A e).
Proof. intros He w r w' [= <- <-]. repeat split; congruence. Qed.

Lemma quiet_bind {A B} (m : M A) (k : A -> M B) :
  quiet m -> (forall a, quiet (k a)) -> quiet (bind m k).
Proof.
  intros Hm Hk w r w'. unfold bind.
  destruct (m w) as [[a | e] w1] eqn:E; intros H.
  - destruct (Hm _ _ _ E) as (F1 & L1 & _).
    destruct (Hk a _ _ _ H) as (F2 & L2 & X). rewrite F2, L2. by repeat split.
  - injection H as <- <-. destruct (Hm _ _ _ E) as (F1 & L1 & X).
    repeat split; [done | done |]. intros e0 [= <-]. by apply X.
Qed.

Lemma quiet_print (s : string) : quiet (print s).
Proof. intros w r w' [= <- <-]. by repeat split. Qed.

Lemma quiet_send (r : request) : quiet (send r).
Proof.
  intros w res w'. unfold send.
  destruct (server w r); intros [= <- <-]; repeat split; intros e [= <-]; done.
Qed.

Lemma getitem_Exception (v : json) (k : string) (e : exn) :
  getitem v k = Raise e -> is_Exception e = true.
Proof.
  destruct v; simpl; try (intros [= <-]; done).
  destruct (dict_get k items); intros [= <-]; done.
Qed.

Lemma getitem_int_Exception (v : json) (i : nat) (e : exn) :
  getitem_int v i = Raise e -> is_Exception e = true.
Proof.
  destruct v; simpl; try (intros [= <-]; done).
  - destruct (String.get i s); intros [= <-]; done.
  - destruct (items !! i); intros [= <-]; done.
Qed.

Lemma quiet_lift {A} (r : result A) :
  (forall e, r = Raise e -> is_Exception e = true) -> quiet (lift r).
Proof. intros Hr w r' w' [= <- <-]. by repeat split. Qed.

Lemma quiet_getitem (v : json) (k : string) : quiet (lift (getitem v k)).
Proof. apply quiet_lift, getitem_Exception. Qed.

Lemma quiet_analyze (code : string) : quiet (analyze_and_fix_code code).
Proof.
  unfold analyze_and_fix_code.
  apply quiet_bind; [apply quiet_send |]. intros resp.
  destruct (negb (status_code resp =? 200)); [by apply quiet_raise |].
  apply quiet_bind.
  { apply quiet_lift. unfold response_json.
    destruct (json_loads (text resp)); intros e [= <-]; done. }
  intros data. apply quiet_bind; [apply quiet_getitem |]. intros choices.
  apply quiet_bind; [apply quiet_lift, getitem_int_Exception |]. intros choice.
  apply quiet_bind; [apply quiet_getitem |]. intros message.
  apply quiet_bind; [apply quiet_getitem |]. intros content.
  apply quiet_lift. unfold json_loads_value.
  destruct content; try (intros e [= <-]; done).
  destruct (json_loads s); intros e [= <-]; done.
Qed.

Lemma quiet_report (fix_ : json) : quiet (report fix_).
Proof.
  unfold report.
  repeat first
    [ apply quiet_print
    | apply quiet_getitem
    | apply quiet_bind; [| intros ? ] ].
Qed.

(** ** How far a run gets *)

(** What the probe does, whatever the server. *)
Lemma check_server_available_eq (w : world) :
  check_server_available w =
  (Ok match server w health_request with
      | Answered r => status_code r =? 200
      | Failed _ => false
      end,
   add_request health_request w).
Proof.
  unfold check_server_available, try_except, bind, requests_get, send, ret.
  fold health_request. by destruct (server w health_request).
Qed.

Lemma main_ready (w : world) (filename content : string) :
  ready w filename content ->
  main w = try_except is_Exception
             (fix_and_save filename (universal_newlines content)) fix_failed
             (add_request health_request w).
Proof.
  intros [(r & Hs & Hr) (prog & rest & Ha) Hf].
  unfold main, bind at 1. rewrite check_server_available_eq, Hs, Hr. simpl.
  unfold bind at 1, ret. unfold bind at 1, get_argv. simpl. rewrite Ha. simpl.
  unfold bind at 1, ret. unfold bind at 1, lift. simpl.
  unfold bind at 1, try_except at 1, read_file. simpl. by rewrite Hf.
Qed.

(** An exception raised under the second [try] ends the run with status 1. *)
Lemma run_fix_failed (w w1 : world) (filename content : string) (e : exn) :
  ready w filename content ->
  fix_and_save filename (universal_newlines content)
    (add_request health_request w) = (Raise e, w1) ->
  is_Exception e = true ->
  run_script w = (1, add_stdout (("Error fixing code: " +:+ str_exn e) +:+ nl) w1).
Proof.
  intros Hr Hb He. unfold run_script. rewrite (main_ready _ _ _ Hr).
  unfold try_except. rewrite Hb, He. reflexivity.
Qed.

Lemma getitem_has_field (v : json) (k : string) (x : json) :
  getitem v k = Ok x -> has_field v k = true.
Proof.
  destruct v; simpl; try discriminate.
  destruct (dict_get k items); [| discriminate].
  intros _. by apply bool_decide_eq_true.
Qed.

(** A report that gets to its end has found "fixed_code". *)
Lemma report_Ok_fixed_code (fix_ : json) (w w' : world) (u : unit) :
  report fix_ w = (Ok u, w') -> has_field fix_ "fixed_code" = true.
Proof.
  unfold report, bind, print, lift.
  destruct (getitem fix_ "language"); [| discriminate].
  destruct (getitem fix_ "error_type"); [| discriminate].
  destruct (getitem fix_ "original_code"); [| discriminate].
  destruct (getitem fix_ "fixed_code") eqn:E; [| discriminate].
  intros _. by apply getitem_has_field in E.
Qed.

(** What the analysis returns on an answer with status 200 and the
    expected shape: [json.loads] of the content of the first choice. *)
Lemma analyze_200 (w : world) (code : string) (r : response)
    (data choices choice message content : json) :
  server w (analysis_request code) = Answered r ->
  status_code r = 200 ->
  json_loads (text r) = Some data ->
  getitem data "choices" = Ok choices ->
  getitem_int choices 0 = Ok choice ->
  getitem choice "message" = Ok message ->
  getitem message "content" = Ok content ->
  analyze_and_fix_code code w =
  (json_loads_value content, add_request (analysis_request code) w).
Proof.
  intros Hs Hr Hd H1 H2 H3 H4.
  unfold analyze_and_fix_code, bind, requests_post, send, lift, response_json.
  fold (analysis_request code). by rewrite Hs, Hr, Hd, H1, H2, H3, H4.
Qed.

(** A run whose analysis raises, or returns a value without "fixed_code",
    ends with status 1 and touches no file. *)
Lemma run_without_fix (w : world) (filename content : string) :
  ready w filename content ->
  (forall fix_ w1,
     analyze_and_fix_code (universal_newlines content)
       (add_request health_request w) = (Ok fix_, w1) ->
     has_field fix_ "fixed_code" = false) ->
  exists w', run_script w = (1, w') /\ fs w' = fs w /\ fs_log w' = fs_log w.
Proof.
  intros Hr Hno. set (w0 := add_request health_request w) in *.
  assert (exists e w1, fix_and_save filename (universal_newlines content) w0 = (Raise e, w1)
                       /\ is_Exception e = true
                       /\ fs w1 = fs w /\ fs_log w1 = fs_log w)
    as (e & w1 & Hb & He & Hf & Hl).
  { unfold fix_and_save, bind at 1.
    destruct (analyze_and_fix_code (universal_newlines content) w0)
      as [[fix_ | e] w1] eqn:Ea.
    - destruct (quiet_analyze _ _ _ _ Ea) as (F1 & L1 & _).
      specialize (Hno _ _ eq_refl). unfold bind at 1.
      destruct (report fix_ w1) as [[u | e] w2] eqn:Er.
      + apply report_Ok_fixed_code in Er. congruence.
      + destruct (quiet_report _ _ _ _ Er) as (F2 & L2 & X2).
        exists e, w2. repeat split; [by apply X2 | by rewrite F2, F1 | by rewrite L2, L1].
    - destruct (quiet_analyze _ _ _ _ Ea) as (F1 & L1 & X1).
      exists e, w1. repeat split; [by apply X1 | by rewrite F1 | by rewrite L1]. }
  eexists. split; [by apply (run_fix_failed _ _ _ _ _ Hr Hb) |]. by split.
Qed.

(** ** The availability check *)

(** C7. The availability check is a total boolean function: on every world
    it returns, never raises, and its value is true exactly when the GET to
    the models endpoint is answered with status 200; a network failure or
    timeout, and any other status, give false. *)
Theorem check_server_available_total (w : world) :
  exists b : bool,
    check_server_available w = (Ok b, add_request health_request w) /\
    (b = true <->
     exists r, server w health_request = Answered r /\ status_code r = 200) /\
    (forall msg, server w health_request = Failed msg -> b = false) /\
    (forall r, server w health_request = Answered r ->
               status_code r <> 200 -> b = false).
Proof.
  eexists. split; [apply check_server_available_eq |].
  destruct (server w health_request) as [r | msg] eqn:E.
  - split; [| split].
    + rewrite Z.eqb_eq. split; [by exists r | by intros (r' & [= <-] & H)].
    + discriminate.
    + intros r' [= <-] H. by apply Z.eqb_neq.
  - split; [| split]; [| done | discriminate].
    split; [discriminate | by intros (r & ? & _)].
Qed.

(** C6. When the health probe returns false, the program exits with status
    1 and the only request it has issued is the probe itself: the analysis
    POST is never sent, and no file is touched. *)
Theorem probe_false_exits (w w1 : world) :
  check_server_available w = (Ok false, w1) ->
  exists w', run_script w = (1, w') /\
             requests w' = (requests w ++ [health_request])%list /\
             (forall code, analysis_request code ∉ [health_request]) /\
             fs w' = fs w /\ fs_log w' = fs_log w.
Proof.
  intros H. unfold run_script, main, bind at 1. rewrite H. simpl.
  rewrite check_server_available_eq in H. injection H as _ <-.
  eexists. split; [reflexivity |]. repeat split.
  intros code Hin. apply list_elem_of_singleton in Hin. discriminate.
Qed.

(** ** Failures of the analysis *)

(** C8. When the chat-completions endpoint answers with a status other than
    200, the analysis raises an exception whose message is
    "API request failed: ", the status code in decimal, a newline and the
    raw body; the program prints it and exits with status 1, and no file is
    touched. *)
Theorem api_error_exits (w : world) (filename content : string) (r : response) :
  ready w filename content ->
  server w (analysis_request (universal_newlines content)) = Answered r ->
  status_code r <> 200 ->
  let w0 := add_request health_request w in
  let w1 := add_request (analysis_request (universal_newlines content)) w0 in
  let msg := "API request failed: " +:+ str_int (status_code r)
             +:+ nl +:+ text r in
  analyze_and_fix_code (universal_newlines content) w0
  = (Raise (PyException msg), w1) /\
  run_script w = (1, add_stdout (("Error fixing code: " +:+ msg) +:+ nl) w1) /\
  fs (snd (run_script w)) = fs w /\ fs_log (snd (run_script w)) = fs_log w.
Proof.
  intros Hr Hs Hc w0 w1 msg.
  assert (Ha : analyze_and_fix_code (universal_newlines content) w0
               = (Raise (PyException msg), w1)).
  { unfold analyze_and_fix_code, bind, requests_post, send.
    fold (analysis_request (universal_newlines content)).
    change (server w0) with (server w). rewrite Hs.
    apply Z.eqb_neq in Hc. by rewrite Hc. }
  assert (Hb : fix_and_save filename (universal_newlines content) w0
               = (Raise (PyException msg), w1)).
  { unfold fix_and_save, bind at 1. by rewrite Ha. }
  split; [done |].
  rewrite (run_fix_failed _ _ _ _ _ Hr Hb eq_refl). by repeat split.
Qed.

(** C4. When the chat endpoint answers with status 200 and the content of
    the first choice is malformed (a text that is not JSON, or JSON
    without "fixed_code"), the program exits with status 1 and the target
    file is not modified: the files and the log of file operations are as
    before, so no backup exists. *)
Theorem malformed_content_exits (w : world) (filename content : string)
    (r : response) (data choices choice message c : json) :
  ready w filename content ->
  server w (analysis_request (universal_newlines content)) = Answered r ->
  status_code r = 200 ->
  json_loads (text r) = Some data ->
  getitem data "choices" = Ok choices ->
  getitem_int choices 0 = Ok choice ->
  getitem choice "message" = Ok message ->
  getitem message "content" = Ok c ->
  malformed c ->
  exists w', run_script w = (1, w') /\ fs w' = fs w /\ fs_log w' = fs_log w.
Proof.
  intros Hr Hs Hc Hd H1 H2 H3 H4 Hm. apply (run_without_fix _ _ _ Hr).
  intros fix_ w1.
  rewrite (analyze_200 (add_request health_request w) _ _ _ _ _ _ _
             Hs Hc Hd H1 H2 H3 H4).
  destruct Hm as [s Hn | s v Hv Hf]; simpl.
  - by rewrite Hn.
  - rewrite Hv. by intros [= <- _].
Qed.

(** C10. When the chat endpoint answers with status 200 and a JSON body that
    misses the expected shape (no "choices", an empty list of choices, a
    first choice without "message", a message without "content"), the
    program exits with status 1 and the target file is not modified. *)
Theorem misshapen_body_exits (w : world) (filename content : string)
    (r : response) (data : json) :
  ready w filename content ->
  server w (analysis_request (universal_newlines content)) = Answered r ->
  status_code r = 200 ->
  json_loads (text r) = Some data ->
  misshapen data ->
  exists w', run_script w = (1, w') /\ fs w' = fs w /\ fs_log w' = fs_log w.
Proof.
  intros Hr Hs Hc Hd Hm. apply (run_without_fix _ _ _ Hr).
  intros fix_ w1.
  unfold analyze_and_fix_code, bind, requests_post, send, lift, response_json.
  fold (analysis_request (universal_newlines content)).
  change (server (add_request health_request w)) with (server w).
  rewrite Hs, Hc, Hd. simpl.
  destruct Hm as [items H1 | items H1 | items fields others H1 H2
                 | items fields others mfields H1 H2 H3]; simpl; rewrite H1; simpl;
    try discriminate.
  - rewrite H2. discriminate.
  - rewrite H2. simpl. rewrite H3. discriminate.
Qed.

(** ** Texts: concatenation, [strip] *)

Lemma length_app (a b : string) :
  String.length (a +:+ b) = (String.length a + String.length b)%nat.
Proof. induction a as [| c a IH]; simpl; [done | by rewrite IH]. Qed.

Lemma app_neq_self (a b : string) : b <> "" -> a +:+ b <> a.
Proof.
  intros Hb H. apply (f_equal String.length) in H. rewrite length_app in H.
  destruct b; [done | simpl in H; lia].
Qed.

Lemma app_inj_r (a b c : string) : a +:+ c = b +:+ c -> a = b.
Proof.
  revert b. induction a as [| x a IH]; intros [| y b] H; simpl in H.
  - done.
  - apply (f_equal String.length) in H. rewrite !length_app in H. simpl in H. lia.
  - apply (f_equal String.length) in H. rewrite !length_app in H. simpl in H. lia.
  - injection H as -> H. f_equal. by apply IH.
Qed.

(** The backup never has the name of the file it saves. *)
Lemma backup_name_neq (filename : string) (t : tm) :
  backup_name filename t <> filename.
Proof. unfold backup_name. by apply app_neq_self. Qed.

(** Backups made at moments that print differently have different names. *)
Lemma backup_name_inj (filename : string) (t1 t2 : tm) :
  backup_name filename t1 = backup_name filename t2 ->
  strftime_YmdHMS t1 = strftime_YmdHMS t2.
Proof.
  unfold backup_name. intros H. apply String.app_inj in H.
  injection H as H.
  exact (app_inj_r (strftime_YmdHMS t1) (strftime_YmdHMS t2) ".bak" H).
Qed.

Lemma lstrip_blank_app (pre s : string) :
  blank pre = true -> lstrip (pre +:+ s) = lstrip s.
Proof.
  induction pre as [| c pre IH]; simpl; [done |].
  intros [Hc Hp]%andb_prop. rewrite Hc. by apply IH.
Qed.

Lemma rstrip_blank (post : string) : blank post = true -> rstrip post = "".
Proof.
  induction post as [| c post IH]; simpl; [done |].
  intros [Hc Hp]%andb_prop. by rewrite (IH Hp), Hc.
Qed.

(** White space around a single visible character is stripped away. *)
Lemma strip_padded (pre post : string) (c : ascii) :
  blank pre = true -> blank post = true -> is_space c = false ->
  strip (pre +:+ String c "" +:+ post) = String c "".
Proof.
  intros Hpre Hpost Hc. change (String c "" +:+ post) with (String c post).
  unfold strip. rewrite (lstrip_blank_app _ _ Hpre).
  simpl. rewrite Hc. simpl. by rewrite (rstrip_blank _ Hpost), Hc.
Qed.

(** ** Confirm and persist *)

(** After the prompt and one typed line, [validate_and_save] either gives
    up or goes on to [persist], by the stripped, lowercased line. *)
Lemma validate_and_save_eq (filename : string) (fix_ : json) (w : world)
    (line : string) (rest : list string) :
  stdin w = line :: rest ->
  validate_and_save filename fix_ w =
  (if (lower (strip line) =? "y")%string then persist filename fix_
   else print "Operation cancelled.")
    (set_stdin rest (add_stdout confirm_prompt w)).
Proof.
  intros Hin. unfold validate_and_save, bind, input. simpl. rewrite Hin.
  by destruct (lower (strip line) =? "y")%string.
Qed.

(** What [persist] does to a file that exists, for a fix whose
    "fixed_code" is a text. *)
Lemma persist_eq (filename : string) (fix_ : json) (w : world)
    (orig code : string) :
  fs w !! filename = Some orig ->
  getitem fix_ "fixed_code" = Ok (JStr code) ->
  let backup := backup_name filename (clock w) in
  exists w',
    persist filename fix_ w = (Ok tt, w') /\
    fs w' = <[filename := code]> (<[backup := orig]> (delete filename (fs w))) /\
    fs_log w' = (fs_log w ++ [EvRename filename backup; EvOpenW filename;
                              EvWrite filename code])%list /\
    clock w' = clock w.
Proof.
  intros Hf Hc backup.
  unfold persist, bind, time_strftime_YmdHMS, os_rename, print, open_w,
    lift, file_write.
  fold (backup_name filename (clock w)). fold backup.
  rewrite Hf. simpl. rewrite Hc. simpl.
  eexists. split; [reflexivity |]. simpl. split; [| split; [| done]].
  - rewrite lookup_insert_eq. simpl. by rewrite insert_insert_eq.
  - by rewrite <- !app_assoc.
Qed.

(** C1, as the code has it.  After an affirmative confirmation, for a file
    that exists and a fix whose "fixed_code" is a text: the step returns
    normally; the backup
    name holds the original content; the original name holds "fixed_code"
    exactly; every other file is as before and the backup name is the one
    name added; and the file operations are, in this order, the rename to
    the backup name, the opening of the original name for writing, the
    write. *)
Theorem confirm_backs_up_then_writes (filename : string) (fix_ : json)
    (w : world) (line : string) (rest : list string) (orig code : string) :
  stdin w = line :: rest ->
  lower (strip line) = "y" ->
  fs w !! filename = Some orig ->
  getitem fix_ "fixed_code" = Ok (JStr code) ->
  let backup := backup_name filename (clock w) in
  exists w',
    validate_and_save filename fix_ w = (Ok tt, w') /\
    fs w' !! backup = Some orig /\
    fs w' !! filename = Some code /\
    (forall p, p <> filename -> p <> backup -> fs w' !! p = fs w !! p) /\
    dom (fs w') = dom (fs w) ∪ {[ backup ]} /\
    fs_log w' = (fs_log w ++ [EvRename filename backup; EvOpenW filename;
                              EvWrite filename code])%list.
Proof using.
  clear. intros Hin Hy Hf Hc backup.
  rewrite (validate_and_save_eq _ _ _ _ _ Hin), Hy. simpl.
  set (w1 := set_stdin rest (add_stdout confirm_prompt w)).
  destruct (persist_eq filename fix_ w1 orig code Hf Hc) as (w' & Hp & Hfs & Hl & _).
  change (clock w1) with (clock w) in Hfs, Hl.
  change (fs w1) with (fs w) in Hfs. change (fs_log w1) with (fs_log w) in Hl.
  fold backup in Hfs, Hl.
  assert (Hne : backup <> filename) by apply backup_name_neq.
  exists w'. split; [done |]. rewrite Hfs. repeat split.
  - rewrite lookup_insert_ne by done. apply lookup_insert_eq.
  - apply lookup_insert_eq.
  - intros p H1 H2. rewrite lookup_insert_ne by done.
    rewrite lookup_insert_ne by done. by apply lookup_delete_ne.
  - rewrite !dom_insert_L, dom_delete_L. apply set_eq. intros x.
    assert (filename ∈ dom (fs w)) by (apply elem_of_dom; eauto).
    rewrite !elem_of_union, elem_of_difference, !elem_of_singleton.
    destruct (decide (x = filename)) as [-> |]; tauto.
  - done.
Qed.

(** C2, as the code has it.  For every typed line whose stripped,
    lowercased form is not "y", the step prints the cancellation notice
    and returns; the files and the log of file operations are unchanged,
    so no backup exists. *)
Theorem decline_leaves_files (filename : string) (fix_ : json) (w : world)
    (line : string) (rest : list string) :
  stdin w = line :: rest ->
  lower (strip line) <> "y" ->
  exists w',
    validate_and_save filename fix_ w = (Ok tt, w') /\
    stdout w' = (stdout w ++ [confirm_prompt; "Operation cancelled." +:+ nl])%list /\
    fs w' = fs w /\ fs_log w' = fs_log w.
Proof.
  intros Hin Hn. rewrite (validate_and_save_eq _ _ _ _ _ Hin).
  apply String.eqb_neq in Hn. rewrite Hn.
  eexists. split; [reflexivity |]. simpl. by rewrite <- app_assoc.
Qed.

(** C9. The typed line is stripped and lowercased before the comparison
    with "y": the step goes on to the backup and the write exactly when
    that form is "y", so "y" or "Y" between white space is an acceptance,
    and "yes" is a refusal. *)
Theorem confirmation_is_stripped_and_lowered (filename : string) (fix_ : json)
    (w : world) (line : string) (rest : list string) :
  stdin w = line :: rest ->
  let w1 := set_stdin rest (add_stdout confirm_prompt w) in
  (lower (strip line) = "y" ->
   validate_and_save filename fix_ w = persist filename fix_ w1) /\
  (lower (strip line) <> "y" ->
   validate_and_save filename fix_ w = print "Operation cancelled." w1) /\
  (forall pre post, blank pre = true -> blank post = true ->
     line = pre +:+ "y" +:+ post \/ line = pre +:+ "Y" +:+ post ->
     validate_and_save filename fix_ w = persist filename fix_ w1) /\
  (line = "yes" ->
   validate_and_save filename fix_ w = print "Operation cancelled." w1).
Proof.
  intros Hin w1. rewrite (validate_and_save_eq _ _ _ _ _ Hin). fold w1.
  split; [| split; [| split]].
  - by intros ->.
  - intros Hn. apply String.eqb_neq in Hn. by rewrite Hn.
  - intros pre post Hpre Hpost [-> | ->].
    + by rewrite (strip_padded pre post "y"%char Hpre Hpost eq_refl).
    + by rewrite (strip_padded pre post "Y"%char Hpre Hpost eq_refl).
  - by intros ->.
Qed.

(** C5, as the code has it.  Two affirmative runs on the same file, the
    second starting from the files the first one left: the second returns
    normally; when the two backup stamps differ, the first backup still
    holds the original content; when they are equal, the first backup's
    name now holds the text written by the first run, which has replaced
    the original content there. *)
Theorem second_run_backup (filename : string) (fix1 fix2 : json)
    (w1 w2 : world) (line1 line2 : string) (rest1 rest2 : list string)
    (orig code1 code2 : string) :
  stdin w1 = line1 :: rest1 -> lower (strip line1) = "y" ->
  fs w1 !! filename = Some orig ->
  getitem fix1 "fixed_code" = Ok (JStr code1) ->
  fs w2 = fs (snd (validate_and_save filename fix1 w1)) ->
  stdin w2 = line2 :: rest2 -> lower (strip line2) = "y" ->
  getitem fix2 "fixed_code" = Ok (JStr code2) ->
  let backup1 := backup_name filename (clock w1) in
  let w2' := snd (validate_and_save filename fix2 w2) in
  fst (validate_and_save filename fix2 w2) = Ok tt /\
  (strftime_YmdHMS (clock w1) <> strftime_YmdHMS (clock w2) ->
   fs w2' !! backup1 = Some orig) /\
  (strftime_YmdHMS (clock w1) = strftime_YmdHMS (clock w2) ->
   fs w2' !! backup1 = Some code1).
Proof.
  intros Hin1 Hy1 Hf1 Hc1 Hfs2 Hin2 Hy2 Hc2 backup1 w2'.
  assert (Hne1 : backup1 <> filename) by apply backup_name_neq.
  rewrite (validate_and_save_eq _ _ _ _ _ Hin1), Hy1 in Hfs2. simpl in Hfs2.
  destruct (persist_eq filename fix1 (set_stdin rest1 (add_stdout confirm_prompt w1))
              orig code1 Hf1 Hc1) as (v1 & Hp1 & Hv1 & _).
  rewrite Hp1 in Hfs2. simpl in Hfs2. rewrite Hv1 in Hfs2. simpl in Hfs2.
  fold backup1 in Hfs2.
  assert (Hf2 : fs w2 !! filename = Some code1).
  { rewrite Hfs2. apply lookup_insert_eq. }
  assert (Hb2 : fs w2 !! backup1 = Some orig).
  { rewrite Hfs2, lookup_insert_ne by done. apply lookup_insert_eq. }
  subst w2'. rewrite (validate_and_save_eq _ _ _ _ _ Hin2), Hy2. simpl.
  destruct (persist_eq filename fix2 (set_stdin rest2 (add_stdout confirm_prompt w2))
              code1 code2 Hf2 Hc2) as (v2 & Hp2 & Hv2 & _).
  rewrite Hp2. simpl. rewrite Hv2. simpl.
  set (backup2 := backup_name filename (clock w2)).
  assert (Hne2 : backup2 <> filename) by apply backup_name_neq.
  split; [done |]. rewrite (lookup_insert_ne _ filename backup1) by done. split.
  - intros Hd. rewrite lookup_insert_ne.
    + by rewrite lookup_delete_ne.
    + intros E. apply Hd. symmetry. by apply (backup_name_inj filename).
  - intros He. replace backup2 with backup1; [apply lookup_insert_eq |].
    unfold backup1, backup2, backup_name. by rewrite He.
Qed.

(** ** Further properties of the program *)

Lemma only_prints_ret {A} (a : A) : only_prints (ret a).
Proof. intros w r w' [= <- <-]. by repeat split. Qed.

Lemma only_prints_print (s : string) : only_prints (print s).
Proof. intros w r w' [= <- <-]. by repeat split. Qed.

Lemma only_prints_lift {A} (r : result A) : only_prints (lift r).
Proof. intros w r' w' [= <- <-]. by repeat split. Qed.

Lemma only_prints_bind {A B} (m : M A) (k : A -> M B) :
  only_prints m -> (forall a, only_prints (k a)) -> only_prints (bind m k).
Proof.
  intros Hm Hk w r w'. unfold bind.
  destruct (m w) as [[a | e] w1] eqn:E; intros H.
  - destruct (Hm _ _ _ E) as (F1 & L1 & I1 & C1 & A1 & S1 & R1).
    destruct (Hk a _ _ _ H) as (F2 & L2 & I2 & C2 & A2 & S2 & R2).
    rewrite F2, L2, I2, C2, A2, S2, R2. by repeat split.
  - injection H as <- <-. by apply (Hm _ _ _ E).
Qed.

Lemma only_prints_report (fix_ : json) : only_prints (report fix_).
Proof.
  unfold report.
  repeat first
    [ apply only_prints_print
    | apply only_prints_lift
    | apply only_prints_bind; [| intros ? ] ].
Qed.

(** The analysis changes the world in one way only, whatever it returns:
    its request is added to those issued. *)
Lemma analyze_world (code : string) (w : world) :
  snd (analyze_and_fix_code code w) = add_request (analysis_request code) w.
Proof.
  unfold analyze_and_fix_code, bind, requests_post, send, lift, raise,
    response_json.
  fold (analysis_request code).
  destruct (server w (analysis_request code)) as [r | msg]; [| done].
  destruct (negb (status_code r =? 200)); [done |].
  destruct (json_loads (text r)) as [data |]; [| done].
  destruct (getitem data "choices") as [choices |]; [| done].
  destruct (getitem_int choices 0) as [choice |]; [| done].
  destruct (getitem choice "message") as [message |]; [| done].
  by destruct (getitem message "content").
Qed.

Lemma no_request_bind {A B} (m : M A) (k : A -> M B) :
  no_request m -> (forall a, no_request (k a)) -> no_request (bind m k).
Proof.
  intros Hm Hk w r w'. unfold bind.
  destruct (m w) as [[a | e] w1] eqn:E; intros H.
  - rewrite (Hk a _ _ _ H). by apply (Hm _ _ _ E).
  - injection H as <- <-. by apply (Hm _ _ _ E).
Qed.

Lemma no_request_only_prints {A} (m : M A) : only_prints m -> no_request m.
Proof. intros H w r w' E. by apply (H _ _ _ E). Qed.

Lemma no_request_validate_and_save (filename : string) (fix_ : json) :
  no_request (validate_and_save filename fix_).
Proof.
  unfold validate_and_save. apply no_request_bind.
  { intros w r w'. unfold input. simpl.
    destruct (stdin w); by intros [= <- <-]. }
  intros line. destruct (negb _).
  { apply no_request_only_prints, only_prints_print. }
  unfold persist. apply no_request_bind; [by intros w r w' [= <- <-] |].
  intros stamp. apply no_request_bind.
  { intros w r w'. unfold os_rename.
    destruct (fs w !! filename); by intros [= <- <-]. }
  intros _. apply no_request_bind.
  { apply no_request_only_prints, only_prints_print. }
  intros _. apply no_request_bind; [by intros w r w' [= <- <-] |].
  intros _. apply no_request_bind.
  { apply no_request_only_prints, only_prints_lift. }
  intros v. apply no_request_bind.
  { intros w r w'. unfold file_write. destruct v; by intros [= <- <-]. }
  intros _. apply no_request_only_prints, only_prints_print.
Qed.

(** What [persist] returns and what it leaves on disk, for any fix and any
    world: by whether the file exists and what "fixed_code" is. *)
Lemma persist_result (filename : string) (fix_ : json) (w : world) :
  fst (persist filename fix_ w) =
  match fs w !! filename with
  | None =>
      Raise (FileNotFoundError filename
               (Some (backup_name filename (clock w))))
  | Some _ =>
      match getitem fix_ "fixed_code" with
      | Ok (JStr _) => Ok tt
      | Ok v => Raise (TypeError ("write() argument must be str, not "
                                  +:+ type_name v))
      | Raise e => Raise e
      end
  end.
Proof.
  unfold persist, bind, time_strftime_YmdHMS, os_rename, print, open_w,
    lift, file_write.
  fold (backup_name filename (clock w)).
  destruct (fs w !! filename); [| done]. simpl.
  destruct (getitem fix_ "fixed_code") as [v |]; [| done]. by destruct v.
Qed.

Lemma persist_fs (filename : string) (fix_ : json) (w : world) :
  fs (snd (persist filename fix_ w)) =
  match fs w !! filename with
  | None => fs w
  | Some orig =>
      <[filename := match getitem fix_ "fixed_code" with
                    | Ok (JStr code) => code
                    | _ => ""
                    end]>
        (<[backup_name filename (clock w) := orig]> (delete filename (fs w)))
  end.
Proof.
  unfold persist, bind, time_strftime_YmdHMS, os_rename, print, open_w,
    lift, file_write.
  fold (backup_name filename (clock w)).
  destruct (fs w !! filename); [| done]. simpl.
  destruct (getitem fix_ "fixed_code") as [v |]; [| done].
  destruct v; try done. simpl.
  rewrite lookup_insert_eq. simpl. by rewrite insert_insert_eq.
Qed.

Lemma persist_fs_log (filename : string) (fix_ : json) (w : world) :
  fs_log (snd (persist filename fix_ w)) =
  match fs w !! filename with
  | None => fs_log w
  | Some _ =>
      (fs_log w ++
       [EvRename filename (backup_name filename (clock w)); EvOpenW filename] ++
       match getitem fix_ "fixed_code" with
       | Ok (JStr code) => [EvWrite filename code]
       | _ => []
       end)%list
  end.
Proof.
  unfold persist, bind, time_strftime_YmdHMS, os_rename, print, open_w,
    lift, file_write.
  fold (backup_name filename (clock w)).
  destruct (fs w !! filename); [| done]. simpl.
  destruct (getitem fix_ "fixed_code") as [v |];
    [destruct v |]; simpl; by rewrite <- ?app_assoc.
Qed.

Lemma validate_and_save_eof (filename : string) (fix_ : json) (w : world) :
  stdin w = [] ->
  validate_and_save filename fix_ w = (Raise EOFError, add_stdout confirm_prompt w).
Proof.
  intros Hin. unfold validate_and_save, bind, input. simpl. by rewrite Hin.
Qed.

(** Whatever [validate_and_save] raises is an [Exception]. *)
Lemma validate_and_save_Exception (filename : string) (fix_ : json)
    (w w' : world) (e : exn) :
  validate_and_save filename fix_ w = (Raise e, w') -> is_Exception e = true.
Proof.
  destruct (stdin w) as [| line rest] eqn:Hin.
  - rewrite (validate_and_save_eof _ _ _ Hin). by intros [= <- _].
  - rewrite (validate_and_save_eq _ _ _ _ _ Hin).
    destruct (lower (strip line) =? "y")%string; [| discriminate].
    intros H. apply (f_equal fst) in H. rewrite persist_result in H. simpl in H.
    destruct (fs w !! filename); [| by inversion H].
    destruct (getitem fix_ "fixed_code") as [v |] eqn:E.
    + destruct v; by inversion H.
    + inversion H; subst. by apply getitem_Exception in E.
Qed.

(** The two ways a run can go: it ends with status 1 before any question is
    asked, nothing on disk or in the input having changed; or the server is
    up, the file was read, the analysis and the report went through, and the
    outcome is that of [validate_and_save] on a world with the same files,
    input and clock. *)
Lemma run_cases (w : world) :
  (exists w', run_script w = (1, w') /\ fs w' = fs w /\
              fs_log w' = fs_log w /\ stdin w' = stdin w /\
              (requests w' = (requests w ++ [health_request])%list \/
               exists filename content,
                 ready w filename content /\
                 requests w' =
                 (requests w ++
                  [health_request;
                   analysis_request (universal_newlines content)])%list))
  \/
  exists filename content fix_ w2,
    ready w filename content /\
    fs w2 = fs w /\ fs_log w2 = fs_log w /\ stdin w2 = stdin w /\
    clock w2 = clock w /\
    requests w2 =
    (requests w ++
     [health_request; analysis_request (universal_newlines content)])%list /\
    match validate_and_save filename fix_ w2 with
    | (Ok _, w') => run_script w = (0, w')
    | (Raise e, w3) =>
        run_script w =
        (1, add_stdout (("Error fixing code: " +:+ str_exn e) +:+ nl) w3)
    end.
Proof.
  destruct (server w health_request) as [r | msg] eqn:Hs.
  2:{ left. eexists. split.
      - unfold run_script, main, bind at 1.
        rewrite check_server_available_eq, Hs. reflexivity.
      - repeat split; by left. }
  destruct (status_code r =? 200) eqn:Hr.
  2:{ left. eexists. split.
      - unfold run_script, main, bind at 1.
        rewrite check_server_available_eq, Hs, Hr. reflexivity.
      - repeat split; by left. }
  destruct (argv w) as [| prog args] eqn:Ha.
  { left. eexists. split.
    - unfold run_script, main, bind at 1.
      rewrite check_server_available_eq, Hs, Hr.
      simpl. unfold bind at 1, ret. unfold bind at 1, get_argv. simpl.
      rewrite Ha. reflexivity.
    - repeat split; by left. }
  destruct args as [| filename rest].
  { left. eexists. split.
    - unfold run_script, main, bind at 1.
      rewrite check_server_available_eq, Hs, Hr.
      simpl. unfold bind at 1, ret. unfold bind at 1, get_argv. simpl.
      rewrite Ha. reflexivity.
    - repeat split; by left. }
  destruct (fs w !! filename) as [content |] eqn:Hf.
  2:{ left. eexists. split.
      - unfold run_script, main, bind at 1.
        rewrite check_server_available_eq, Hs, Hr.
        simpl. unfold bind at 1, ret. unfold bind at 1, get_argv. simpl.
        rewrite Ha. simpl. unfold bind at 1, ret. unfold bind at 1, lift. simpl.
        unfold bind at 1, try_except at 1, read_file. simpl. rewrite Hf.
        reflexivity.
      - repeat split; by left. }
  apply Z.eqb_eq in Hr.
  assert (Hready : ready w filename content).
  { split; [by exists r | by exists prog, rest | done]. }
  set (w0 := add_request health_request w).
  pose proof (analyze_world (universal_newlines content) w0) as W.
  destruct (analyze_and_fix_code (universal_newlines content) w0) as [[fix_ | e] w1] eqn:Ea;
    simpl in W.
  2:{ left. destruct (quiet_analyze _ _ _ _ Ea) as (F1 & L1 & X1).
      assert (Hb : fix_and_save filename (universal_newlines content) w0 = (Raise e, w1)).
      { unfold fix_and_save, bind at 1. by rewrite Ea. }
      eexists. split; [apply (run_fix_failed _ _ _ _ _ Hready Hb (X1 _ eq_refl)) |].
      simpl. rewrite W. repeat split; try done.
      right. exists filename, content. split; [done |]. simpl.
      by rewrite <- app_assoc. }
  destruct (report fix_ w1) as [[u | e] w2] eqn:Er.
  2:{ left. destruct (quiet_report _ _ _ _ Er) as (F2 & L2 & X2).
      destruct (only_prints_report _ _ _ _ Er) as (_ & _ & I2 & _ & _ & _ & R2).
      assert (Hb : fix_and_save filename (universal_newlines content) w0 = (Raise e, w2)).
      { unfold fix_and_save, bind at 1. rewrite Ea. unfold bind at 1.
        by rewrite Er. }
      eexists. split; [apply (run_fix_failed _ _ _ _ _ Hready Hb (X2 _ eq_refl)) |].
      simpl. rewrite F2, L2, I2, R2, W. repeat split; try done.
      right. exists filename, content. split; [done |]. simpl.
      by rewrite <- app_assoc. }
  right. exists filename, content, fix_, w2.
  destruct (only_prints_report _ _ _ _ Er) as (F2 & L2 & I2 & C2 & _ & _ & R2).
  split; [done |]. rewrite F2, L2, I2, C2, R2, W.
  split; [done |]. split; [done |]. split; [done |]. split; [done |].
  split; [simpl; by rewrite <- app_assoc |].
  assert (Hb : fix_and_save filename (universal_newlines content) w0 =
               validate_and_save filename fix_ w2).
  { unfold fix_and_save, bind at 1. rewrite Ea. unfold bind at 1.
    by rewrite Er. }
  destruct (validate_and_save filename fix_ w2) as [[u' | e] w3] eqn:Ev.
  - unfold run_script. rewrite (main_ready _ _ _ Hready). unfold try_except.
    fold w0. by rewrite Hb.
  - apply (run_fix_failed _ _ _ _ _ Hready Hb).
    by apply (validate_and_save_Exception _ _ _ _ _ Ev).
Qed.

(** What [validate_and_save] leaves on disk, for any fix and any world. *)
Lemma validate_and_save_fs (filename : string) (fix_ : json) (w : world) :
  fs (snd (validate_and_save filename fix_ w)) =
  match stdin w with
  | line :: _ =>
      if (lower (strip line) =? "y")%string then
        match fs w !! filename with
        | None => fs w
        | Some orig =>
            <[filename := match getitem fix_ "fixed_code" with
                          | Ok (JStr code) => code
                          | _ => ""
                          end]>
              (<[backup_name filename (clock w) := orig]> (delete filename (fs w)))
        end
      else fs w
  | [] => fs w
  end.
Proof.
  destruct (stdin w) as [| line rest] eqn:Hin.
  - by rewrite (validate_and_save_eof _ _ _ Hin).
  - rewrite (validate_and_save_eq _ _ _ _ _ Hin).
    destruct (lower (strip line) =? "y")%string; [| done].
    by rewrite persist_fs.
Qed.

Lemma validate_and_save_fs_log (filename : string) (fix_ : json) (w : world) :
  fs_log (snd (validate_and_save filename fix_ w)) =
  match stdin w with
  | line :: _ =>
      if (lower (strip line) =? "y")%string then
        match fs w !! filename with
        | None => fs_log w
        | Some _ =>
            (fs_log w ++
             [EvRename filename (backup_name filename (clock w));
              EvOpenW filename] ++
             match getitem fix_ "fixed_code" with
             | Ok (JStr code) => [EvWrite filename code]
             | _ => []
             end)%list
        end
      else fs_log w
  | [] => fs_log w
  end.
Proof.
  destruct (stdin w) as [| line rest] eqn:Hin.
  - by rewrite (validate_and_save_eof _ _ _ Hin).
  - rewrite (validate_and_save_eq _ _ _ _ _ Hin).
    destruct (lower (strip line) =? "y")%string; [| done].
    by rewrite persist_fs_log.
Qed.

(** In the second case of [run_cases] the run ends in the world
    [validate_and_save] ends in, up to one more printed line. *)
Lemma run_after_confirm (w w2 : world) (filename : string) (fix_ : json) :
  match validate_and_save filename fix_ w2 with
  | (Ok _, w') => run_script w = (0, w')
  | (Raise e, w3) =>
      run_script w =
      (1, add_stdout (("Error fixing code: " +:+ str_exn e) +:+ nl) w3)
  end ->
  fs (snd (run_script w)) = fs (snd (validate_and_save filename fix_ w2)) /\
  fs_log (snd (run_script w)) = fs_log (snd (validate_and_save filename fix_ w2)) /\
  requests (snd (run_script w)) = requests (snd (validate_and_save filename fix_ w2)) /\
  (fst (run_script w) = 0 <-> exists u, fst (validate_and_save filename fix_ w2) = Ok u) /\
  (fst (run_script w) = 0 \/ fst (run_script w) = 1).
Proof.
  destruct (validate_and_save filename fix_ w2) as [[u | e] w3]; intros ->; simpl.
  - repeat split; eauto.
  - repeat split; eauto; [discriminate | by intros [u [=]]].
Qed.

(** X1. A run changes the files only after an accepted confirmation: for
    every world, either the files and the log of file operations are as
    before, or the first line typed has the stripped, lowercased form "y". *)
Theorem run_changes_files_only_when_confirmed (w : world) :
  (fs (snd (run_script w)) = fs w /\ fs_log (snd (run_script w)) = fs_log w)
  \/ exists line rest, stdin w = line :: rest /\ lower (strip line) = "y".
Proof.
  destruct (run_cases w) as [(w' & -> & F & L & _)
                            | (filename & content & fix_ & w2 & _ & F & L & I & _ & _ & H)].
  { by left. }
  apply run_after_confirm in H as (-> & -> & _).
  rewrite validate_and_save_fs, validate_and_save_fs_log, I.
  destruct (stdin w) as [| line rest]; [by left |].
  destruct (lower (strip line) =? "y")%string eqn:E; [| by left].
  right. exists line, rest. split; [done |]. by apply String.eqb_eq.
Qed.

(** X2. A run touches no file but the one named on the command line and
    its backup: every other path holds after the run what it held before. *)
Theorem run_touches_only_target_and_backup (w : world) (p : string) :
  (forall filename, argv w !! 1%nat = Some filename ->
     p <> filename /\ p <> backup_name filename (clock w)) ->
  fs (snd (run_script w)) !! p = fs w !! p.
Proof.
  intros Hp.
  destruct (run_cases w) as [(w' & -> & F & _)
                            | (filename & content & fix_ & w2 & R & F & _ & _ & C & _ & H)].
  { simpl. by rewrite F. }
  destruct R as [_ (prog & rest & Ha) _].
  destruct (Hp filename) as [H1 H2]; [by rewrite Ha |].
  apply run_after_confirm in H as (-> & _).
  rewrite validate_and_save_fs, F, C.
  destruct (stdin w2) as [| line rest']; [done |].
  destruct (lower (strip line) =? "y")%string; [| done].
  destruct (fs w !! filename); [| done].
  rewrite lookup_insert_ne by done. rewrite lookup_insert_ne by done.
  by rewrite lookup_delete_ne.
Qed.

(** X3. The original content is never lost: whatever the run does and
    however it ends, afterwards the content the named file had is still
    under its name or under the backup name. *)
Theorem run_keeps_original_content (w : world) (filename orig : string) :
  argv w !! 1%nat = Some filename ->
  fs w !! filename = Some orig ->
  fs (snd (run_script w)) !! filename = Some orig \/
  fs (snd (run_script w)) !! backup_name filename (clock w) = Some orig.
Proof.
  intros Ha Hf.
  destruct (run_cases w) as [(w' & -> & F & _)
                            | (f & content & fix_ & w2 & R & F & _ & _ & C & _ & H)].
  { left. simpl. by rewrite F. }
  destruct R as [_ (prog & rest & Ha') _]. rewrite Ha' in Ha.
  injection Ha as ->.
  apply run_after_confirm in H as (-> & _).
  rewrite validate_and_save_fs, F, C.
  destruct (stdin w2) as [| line rest']; [by left |].
  destruct (lower (strip line) =? "y")%string; [| by left].
  rewrite Hf. right.
  rewrite lookup_insert_ne by (apply not_eq_sym, backup_name_neq).
  apply lookup_insert_eq.
Qed.

(** X6. With nothing to read on the console a run never succeeds and never
    changes a file: it exits with status 1. *)
Theorem run_without_input_fails (w : world) :
  stdin w = [] ->
  fst (run_script w) = 1 /\
  fs (snd (run_script w)) = fs w /\ fs_log (snd (run_script w)) = fs_log w.
Proof.
  intros Hin.
  destruct (run_cases w) as [(w' & -> & F & L & _)
                            | (f & content & fix_ & w2 & _ & F & L & I & _ & _ & H)].
  { by repeat split. }
  rewrite Hin in I. rewrite (validate_and_save_eof _ _ _ I) in H.
  rewrite H. simpl. by repeat split.
Qed.

(** X18. Every run ends with status 0 or 1, and status 0 means that the
    server was up, the named file was read and a confirmation line was
    read from the console. *)
Theorem run_exit_status (w : world) :
  (fst (run_script w) = 0 \/ fst (run_script w) = 1) /\
  (fst (run_script w) = 0 ->
   (exists filename content, ready w filename content) /\
   exists line rest, stdin w = line :: rest).
Proof.
  destruct (run_cases w) as [(w' & -> & _)
                            | (f & content & fix_ & w2 & R & _ & _ & I & _ & _ & H)].
  { split; [by right | discriminate]. }
  destruct (stdin w) as [| line rest] eqn:Hin.
  - rewrite (validate_and_save_eof _ _ _ I) in H. rewrite H.
    split; [by right | discriminate].
  - apply run_after_confirm in H as (_ & _ & _ & _ & H). split; [done |].
    intros _. split; [by exists f, content | by exists line, rest].
Qed.

(** ** Early exits *)

(** X7. With the server up and no file named, the run prints the usage
    line and exits with status 1; the probe has been sent, nothing else
    has happened. *)
Theorem usage_error_exits (w : world) (r : response) :
  server w health_request = Answered r ->
  status_code r = 200 ->
  (length (argv w) < 2)%nat ->
  run_script w =
  (1, add_stdout ("Usage: codefixer.py <filename>" +:+ nl)
        (add_request health_request w)).
Proof.
  intros Hs Hr Hl. apply Z.eqb_eq in Hr. apply Nat.ltb_lt in Hl.
  unfold run_script, main, bind at 1.
  rewrite check_server_available_eq, Hs, Hr.
  simpl. unfold bind at 1, ret. unfold bind at 1, get_argv. simpl.
  unfold bind at 1. by rewrite Hl.
Qed.

(** X8. With the server up and a named file that does not exist, the run
    prints "Error reading file: " and the text of the error and exits with
    status 1; the probe is the only request sent. *)
Theorem unreadable_file_exits (w : world) (r : response)
    (prog filename : string) (rest : list string) :
  server w health_request = Answered r ->
  status_code r = 200 ->
  argv w = prog :: filename :: rest ->
  fs w !! filename = None ->
  run_script w =
  (1, add_stdout
        (("Error reading file: " +:+ str_exn (FileNotFoundError filename None))
         +:+ nl)
        (add_request health_request w)).
Proof.
  intros Hs Hr Ha Hf. apply Z.eqb_eq in Hr.
  unfold run_script, main, bind at 1.
  rewrite check_server_available_eq, Hs, Hr.
  simpl. unfold bind at 1, ret. unfold bind at 1, get_argv. simpl.
  rewrite Ha. simpl. unfold bind at 1, ret. unfold bind at 1, lift. simpl.
  unfold bind at 1, try_except at 1, read_file. simpl. by rewrite Hf.
Qed.

(** X9. When the analysis request cannot be delivered (connection refused,
    timeout), the run prints "Error fixing code: " and the text of the
    failure and exits with status 1; no file is touched and the request is
    not sent again. *)
Theorem transport_failure_exits (w : world) (filename content msg : string) :
  ready w filename content ->
  server w (analysis_request (universal_newlines content)) = Failed msg ->
  run_script w =
  (1, add_stdout (("Error fixing code: " +:+ msg) +:+ nl)
        (add_request (analysis_request (universal_newlines content))
           (add_request health_request w))).
Proof.
  intros Hr Hs.
  apply (run_fix_failed w _ filename content (RequestException msg) Hr);
    [| done].
  unfold fix_and_save, bind at 1, analyze_and_fix_code, bind at 1,
    requests_post, send.
  fold (analysis_request (universal_newlines content)).
  change (server (add_request health_request w)) with (server w).
  by rewrite Hs.
Qed.

(** X10. When the answer has status 200 and a body that is not JSON,
    [response.json()] raises; the run prints "Error fixing code: " and the
    text of the decoding error and exits with status 1, no file touched. *)
Theorem body_not_json_exits (w : world) (filename content : string)
    (r : response) :
  ready w filename content ->
  server w (analysis_request (universal_newlines content)) = Answered r ->
  status_code r = 200 ->
  json_loads (text r) = None ->
  run_script w =
  (1, add_stdout (("Error fixing code: " +:+ json_error_msg (text r)) +:+ nl)
        (add_request (analysis_request (universal_newlines content))
           (add_request health_request w))).
Proof.
  intros Hr Hs Hc Hj.
  apply (run_fix_failed w _ filename content
           (RequestsJSONDecodeError (text r)) Hr); [| done].
  unfold fix_and_save, bind at 1, analyze_and_fix_code, bind,
    requests_post, send, lift, response_json.
  fold (analysis_request (universal_newlines content)).
  change (server (add_request health_request w)) with (server w).
  apply Z.eqb_eq in Hc. by rewrite Hs, Hc, Hj.
Qed.

(** ** Requests *)

(** X13. One call of the analysis sends exactly one request, the POST that
    carries the code, whatever the answer and whatever the call returns or
    raises; it prints nothing, reads nothing and touches no file. *)
Theorem analysis_sends_one_request (code : string) (w : world) :
  let w' := snd (analyze_and_fix_code code w) in
  requests w' = (requests w ++ [analysis_request code])%list /\
  stdout w' = stdout w /\ stdin w' = stdin w /\
  fs w' = fs w /\ fs_log w' = fs_log w.
Proof. cbv zeta. by rewrite analyze_world. Qed.

(** X14. Every run sends the probe first and then at most one analysis
    request; when it sends one, the server was up and the request carries
    the text read from the file named on the command line: its content
    with every line end, CR LF or a lone CR, read as LF. *)
Theorem run_requests (w : world) :
  requests (snd (run_script w)) = (requests w ++ [health_request])%list \/
  exists filename content,
    ready w filename content /\
    requests (snd (run_script w))
    = (requests w ++ [health_request; analysis_request (universal_newlines content)])%list.
Proof.
  destruct (run_cases w) as [(w' & -> & _ & _ & _ & H)
                            | (f & content & fix_ & w2 & R & _ & _ & _ & _ & Q & H)].
  { done. }
  right. exists f, content. split; [done |].
  apply run_after_confirm in H as (_ & _ & -> & _).
  destruct (validate_and_save f fix_ w2) as [res w3] eqn:E.
  simpl. by rewrite (no_request_validate_and_save _ _ _ _ _ E).
Qed.

(** ** The report *)

Lemma has_field_getitem (v : json) (k : string) :
  has_field v k = true -> exists x, getitem v k = Ok x.
Proof.
  destruct v; simpl; try discriminate.
  intros [x Hx]%bool_decide_eq_true. rewrite Hx. by exists x.
Qed.

(** X19. The report goes through exactly when the analysis result has all
    five fields, "original_code" included; otherwise it raises. *)
Theorem report_succeeds_iff_five_fields (fix_ : json) (w : world) :
  fst (report fix_ w) = Ok tt <->
  has_field fix_ "language" = true /\ has_field fix_ "error_type" = true /\
  has_field fix_ "original_code" = true /\ has_field fix_ "fixed_code" = true /\
  has_field fix_ "explanation" = true.
Proof.
  split.
  - unfold report, bind, print, lift.
    destruct (getitem fix_ "language") eqn:E1; [| discriminate].
    destruct (getitem fix_ "error_type") eqn:E2; [| discriminate].
    destruct (getitem fix_ "original_code") eqn:E3; [| discriminate].
    destruct (getitem fix_ "fixed_code") eqn:E4; [| discriminate].
    destruct (getitem fix_ "explanation") eqn:E5; [| discriminate].
    intros _. repeat split; by eapply getitem_has_field.
  - intros (H1 & H2 & H3 & H4 & H5).
    apply has_field_getitem in H1 as [x1 E1], H2 as [x2 E2], H3 as [x3 E3],
      H4 as [x4 E4], H5 as [x5 E5].
    unfold report, bind, print, lift. by rewrite E1, E2, E3, E4, E5.
Qed.

(** The report on a result with the five fields: what is printed, and that
    nothing else changes. *)
Lemma report_ok (fix_ : json) (w : world)
    (language error_type original_code fixed_code explanation : json) :
  getitem fix_ "language" = Ok language ->
  getitem fix_ "error_type" = Ok error_type ->
  getitem fix_ "original_code" = Ok original_code ->
  getitem fix_ "fixed_code" = Ok fixed_code ->
  getitem fix_ "explanation" = Ok explanation ->
  exists w',
    report fix_ w = (Ok tt, w') /\
    stdout w' = (stdout w ++ report_lines language error_type original_code
                                          fixed_code explanation)%list /\
    fs w' = fs w /\ fs_log w' = fs_log w /\ stdin w' = stdin w /\
    clock w' = clock w /\ requests w' = requests w.
Proof.
  intros E1 E2 E3 E4 E5. unfold report, bind, print, lift.
  rewrite E1, E2, E3, E4, E5. eexists. split; [reflexivity |]. simpl.
  split; [| done]. unfold report_lines. by rewrite <- !app_assoc.
Qed.

(** X20. On a result with the five fields the report writes, in this order,
    the heading, the language, the error type, the original code, the fixed
    code and the explanation, each value as [str] gives it (a text
    verbatim), and changes nothing else. *)
Theorem report_prints_in_order (fix_ : json) (w : world)
    (language error_type original_code fixed_code explanation : json) :
  getitem fix_ "language" = Ok language ->
  getitem fix_ "error_type" = Ok error_type ->
  getitem fix_ "original_code" = Ok original_code ->
  getitem fix_ "fixed_code" = Ok fixed_code ->
  getitem fix_ "explanation" = Ok explanation ->
  exists w',
    report fix_ w = (Ok tt, w') /\
    stdout w' = (stdout w ++ report_lines language error_type original_code
                                          fixed_code explanation)%list /\
    fs w' = fs w /\ fs_log w' = fs_log w /\ stdin w' = stdin w /\
    clock w' = clock w /\ requests w' = requests w.
Proof.
  intros E1 E2 E3 E4 E5.
  exact (report_ok fix_ w _ _ _ _ _ E1 E2 E3 E4 E5).
Qed.

(** The analysis returns the parsed content of a well-shaped answer. *)
Lemma analyze_ok (w : world) (code : string) (fix_ : json) :
  answers_with w code fix_ ->
  analyze_and_fix_code code w = (Ok fix_, add_request (analysis_request code) w).
Proof.
  intros (r & data & choices & choice & message & s
          & Hs & Hr & Hd & H1 & H2 & H3 & H4 & Hp).
  rewrite (analyze_200 w _ _ _ _ _ _ _ Hs Hr Hd H1 H2 H3 H4). simpl.
  by rewrite Hp.
Qed.

(** [persist] on a file that exists, with a text to write: the whole
    outcome. *)
Lemma persist_ok (filename : string) (fix_ : json) (w : world)
    (orig code : string) :
  fs w !! filename = Some orig ->
  getitem fix_ "fixed_code" = Ok (JStr code) ->
  let backup := backup_name filename (clock w) in
  exists w',
    persist filename fix_ w = (Ok tt, w') /\
    fs w' = <[filename := code]> (<[backup := orig]> (delete filename (fs w))) /\
    stdout w' = (stdout w ++ [("Backup saved to " +:+ backup) +:+ nl;
                              "Update successful!" +:+ nl])%list /\
    stdin w' = stdin w /\ requests w' = requests w.
Proof.
  intros Hf Hc backup.
  unfold persist, bind, time_strftime_YmdHMS, os_rename, print, open_w,
    lift, file_write.
  fold (backup_name filename (clock w)). fold backup.
  rewrite Hf. simpl. rewrite Hc. simpl.
  eexists. split; [reflexivity |]. simpl. split; [| split; [| done]].
  - rewrite lookup_insert_eq. simpl. by rewrite insert_insert_eq.
  - by rewrite <- !app_assoc.
Qed.

(** ** Whole runs *)

(** X11. A whole successful run.  The server is up, the file is read, the
    answer carries a result with the five fields and a text as
    "fixed_code", and the confirmation is accepted: the run ends with
    status 0; it has printed the report, the question, the name of the
    backup and the success line, in this order; it has sent the probe and
    one analysis request; the file holds the fixed code and the backup holds
    what the file held. *)
Theorem confirmed_run_succeeds (w : world) (filename content : string)
    (fix_ : json) (language error_type original_code explanation : json)
    (code line : string) (rest : list string) :
  ready w filename content ->
  answers_with w (universal_newlines content) fix_ ->
  getitem fix_ "language" = Ok language ->
  getitem fix_ "error_type" = Ok error_type ->
  getitem fix_ "original_code" = Ok original_code ->
  getitem fix_ "fixed_code" = Ok (JStr code) ->
  getitem fix_ "explanation" = Ok explanation ->
  stdin w = line :: rest ->
  lower (strip line) = "y" ->
  let backup := backup_name filename (clock w) in
  exists w',
    run_script w = (0, w') /\
    stdout w' =
      (stdout w
       ++ report_lines language error_type original_code (JStr code) explanation
       ++ [confirm_prompt; ("Backup saved to " +:+ backup) +:+ nl;
           "Update successful!" +:+ nl])%list /\
    requests w' =
    (requests w ++
     [health_request; analysis_request (universal_newlines content)])%list /\
    fs w' = <[filename := code]> (<[backup := content]> (delete filename (fs w))) /\
    stdin w' = rest.
Proof.
  intros Hr Ha E1 E2 E3 E4 E5 Hin Hy backup.
  set (w0 := add_request health_request w).
  assert (Ha0 : answers_with w0 (universal_newlines content) fix_) by exact Ha.
  pose proof (analyze_ok _ _ _ Ha0) as Ean.
  set (w1 := add_request (analysis_request (universal_newlines content)) w0) in Ean.
  destruct (report_ok fix_ w1 _ _ _ _ _ E1 E2 E3 E4 E5)
    as (w2 & Er & O2 & F2 & _ & I2 & C2 & R2).
  assert (Hin2 : stdin w2 = line :: rest) by (by rewrite I2).
  pose proof (validate_and_save_eq filename fix_ w2 line rest Hin2) as Ev.
  rewrite Hy in Ev. simpl in Ev.
  set (w3 := set_stdin rest (add_stdout confirm_prompt w2)) in Ev.
  assert (Hf3 : fs w3 !! filename = Some content).
  { change (fs w3) with (fs w2). rewrite F2. by destruct Hr. }
  destruct (persist_ok filename fix_ w3 content code Hf3 E4)
    as (w' & Ep & F' & O' & I' & R').
  exists w'. split.
  - unfold run_script. rewrite (main_ready _ _ _ Hr). unfold try_except.
    fold w0. unfold fix_and_save, bind at 1. rewrite Ean. unfold bind at 1.
    by rewrite Er, Ev, Ep.
  - rewrite O', R', F', I'. simpl. rewrite O2, R2, F2, C2. simpl.
    repeat split; by rewrite <- ?app_assoc.
Qed.

(** X12. A whole declined run.  With the same answer and any line that is
    not an acceptance, the run still ends with status 0: the report and the
    question are printed, then the cancellation notice, and the files are
    as before. *)
Theorem declined_run_exits_zero (w : world) (filename content : string)
    (fix_ : json) (language error_type original_code fixed_code
    explanation : json) (line : string) (rest : list string) :
  ready w filename content ->
  answers_with w (universal_newlines content) fix_ ->
  getitem fix_ "language" = Ok language ->
  getitem fix_ "error_type" = Ok error_type ->
  getitem fix_ "original_code" = Ok original_code ->
  getitem fix_ "fixed_code" = Ok fixed_code ->
  getitem fix_ "explanation" = Ok explanation ->
  stdin w = line :: rest ->
  lower (strip line) <> "y" ->
  exists w',
    run_script w = (0, w') /\
    stdout w' =
      (stdout w
       ++ report_lines language error_type original_code fixed_code explanation
       ++ [confirm_prompt; "Operation cancelled." +:+ nl])%list /\
    fs w' = fs w /\ fs_log w' = fs_log w.
Proof.
  intros Hr Ha E1 E2 E3 E4 E5 Hin Hn.
  set (w0 := add_request health_request w).
  assert (Ha0 : answers_with w0 (universal_newlines content) fix_) by exact Ha.
  pose proof (analyze_ok _ _ _ Ha0) as Ean.
  set (w1 := add_request (analysis_request (universal_newlines content)) w0) in Ean.
  destruct (report_ok fix_ w1 _ _ _ _ _ E1 E2 E3 E4 E5)
    as (w2 & Er & O2 & F2 & L2 & I2 & _).
  assert (Hin2 : stdin w2 = line :: rest) by (by rewrite I2).
  pose proof (validate_and_save_eq filename fix_ w2 line rest Hin2) as Ev.
  apply String.eqb_neq in Hn. rewrite Hn in Ev.
  eexists. split.
  - unfold run_script. rewrite (main_ready _ _ _ Hr). unfold try_except.
    fold w0. unfold fix_and_save, bind at 1. rewrite Ean. unfold bind at 1.
    rewrite Er, Ev. reflexivity.
  - simpl. rewrite O2, F2, L2. simpl. repeat split.
    by rewrite <- !app_assoc.
Qed.

(** ** Failures after the confirmation *)

(** X4. An accepted confirmation with a "fixed_code" that is missing or is
    not a text: the file has already been renamed and opened for writing
    when the write fails, so the step raises, the file is left empty and
    the backup holds the original content; nothing is written. *)
Theorem failed_write_leaves_empty_file (filename : string) (fix_ : json)
    (w : world) (line : string) (rest : list string) (orig : string) :
  stdin w = line :: rest ->
  lower (strip line) = "y" ->
  fs w !! filename = Some orig ->
  (forall code, getitem fix_ "fixed_code" <> Ok (JStr code)) ->
  let backup := backup_name filename (clock w) in
  exists e w',
    validate_and_save filename fix_ w = (Raise e, w') /\
    is_Exception e = true /\
    fs w' !! filename = Some "" /\
    fs w' !! backup = Some orig /\
    fs_log w' = (fs_log w ++ [EvRename filename backup; EvOpenW filename])%list.
Proof using.
  clear. intros Hin Hy Hf Hc backup.
  pose proof (validate_and_save_fs filename fix_ w) as F.
  pose proof (validate_and_save_fs_log filename fix_ w) as L.
  rewrite Hin, Hy, Hf in F, L. simpl in F, L.
  pose proof (validate_and_save_eq filename fix_ w line rest Hin) as E.
  rewrite Hy in E. simpl in E.
  pose proof (persist_result filename fix_
                (set_stdin rest (add_stdout confirm_prompt w))) as R.
  rewrite <- E in R. simpl in R. rewrite Hf in R.
  destruct (validate_and_save filename fix_ w) as [res w'].
  simpl in F, L, R. fold backup in F, L.
  assert (exists e, res = Raise e /\ is_Exception e = true
                    /\ fs w' = <[filename := ""]>
                                 (<[backup := orig]> (delete filename (fs w)))
                    /\ fs_log w' = (fs_log w ++ [EvRename filename backup;
                                                  EvOpenW filename])%list)
    as (e & -> & He & F' & L').
  { destruct (getitem fix_ "fixed_code") as [v |] eqn:G.
    - destruct v; try (by eexists; repeat split).
      by destruct (Hc s).
    - exists e. repeat split; try done. by apply getitem_Exception in G. }
  exists e, w'. split; [done |]. split; [done |]. rewrite F'.
  split; [apply lookup_insert_eq |]. split; [| done].
  rewrite lookup_insert_ne by (apply not_eq_sym, backup_name_neq).
  apply lookup_insert_eq.
Qed.

(** X5. An accepted confirmation for a file that is not there: the rename
    raises [FileNotFoundError] naming the file and the backup; nothing is
    written and no file changes, and no backup line is printed. *)
Theorem missing_file_aborts_before_write (filename : string) (fix_ : json)
    (w : world) (line : string) (rest : list string) :
  stdin w = line :: rest ->
  lower (strip line) = "y" ->
  fs w !! filename = None ->
  let w1 := set_stdin rest (add_stdout confirm_prompt w) in
  validate_and_save filename fix_ w =
  (Raise (FileNotFoundError filename (Some (backup_name filename (clock w)))),
   w1) /\
  fs w1 = fs w /\ fs_log w1 = fs_log w.
Proof.
  intros Hin Hy Hf w1. split; [| done].
  rewrite (validate_and_save_eq _ _ _ _ _ Hin), Hy. simpl. fold w1.
  unfold persist, bind, time_strftime_YmdHMS, os_rename.
  change (fs w1) with (fs w). by rewrite Hf.
Qed.

(** ** The accepted lines *)

Lemma lower_char_y (c : ascii) :
  lower_char c = "y"%char -> c = "y"%char \/ c = "Y"%char.
Proof.
  destruct c as [[] [] [] [] [] [] [] []]; vm_compute; intros H;
    first [discriminate | by left | by right].
Qed.

Lemma lower_y (s : string) : lower s = "y" -> s = "y" \/ s = "Y".
Proof.
  destruct s as [| c [| d s]]; simpl; try discriminate.
  intros [= H]. by destruct (lower_char_y _ H) as [-> | ->]; [left | right].
Qed.

Lemma lstrip_split (s : string) :
  exists pre, blank pre = true /\ s = pre +:+ lstrip s.
Proof.
  induction s as [| c s (pre & Hb & Hs)]; [by exists "" |]. simpl.
  destruct (is_space c) eqn:Hc; [| by exists ""].
  exists (String c pre). simpl. rewrite Hc, Hb. split; [done |].
  change (String c pre +:+ lstrip s) with (String c (pre +:+ lstrip s)).
  by rewrite <- Hs.
Qed.

Lemma rstrip_split (s : string) :
  exists post, blank post = true /\ s = rstrip s +:+ post.
Proof.
  induction s as [| c s (post & Hb & Hs)]; [by exists "" |]. simpl.
  destruct (rstrip s) as [| d r] eqn:Hr.
  - change ("" +:+ post) with post in Hs. subst s.
    destruct (is_space c) eqn:Hc.
    + exists (String c post). simpl. by rewrite Hc, Hb.
    + by exists post.
  - exists post. split; [done |].
    change (String c (String d r) +:+ post)
      with (String c (String d r +:+ post)).
    by rewrite <- Hs.
Qed.

(** A text is its stripped form between two runs of white space. *)
Lemma strip_split (s : string) :
  exists pre post, blank pre = true /\ blank post = true /\
                   s = pre +:+ strip s +:+ post.
Proof.
  destruct (lstrip_split s) as (pre & Hpre & Hs).
  destruct (rstrip_split (lstrip s)) as (post & Hpost & Hl).
  exists pre, post. split; [done |]. split; [done |].
  unfold strip. by rewrite <- Hl.
Qed.

(** X15. The accepted lines are exactly "y" or "Y" between two runs of
    white space: on such a line the step goes on to the backup and the
    write, on every other line it prints the cancellation notice. *)
Theorem accepted_lines (filename : string) (fix_ : json) (w : world)
    (line : string) (rest : list string) :
  stdin w = line :: rest ->
  let w1 := set_stdin rest (add_stdout confirm_prompt w) in
  let accepted := exists pre post, blank pre = true /\ blank post = true /\
                    (line = pre +:+ "y" +:+ post \/ line = pre +:+ "Y" +:+ post) in
  (accepted -> validate_and_save filename fix_ w = persist filename fix_ w1) /\
  (~ accepted ->
   validate_and_save filename fix_ w = print "Operation cancelled." w1).
Proof.
  intros Hin w1 accepted. rewrite (validate_and_save_eq _ _ _ _ _ Hin). fold w1.
  split.
  - intros (pre & post & Hpre & Hpost & [-> | ->]).
    + by rewrite (strip_padded pre post "y"%char Hpre Hpost eq_refl).
    + by rewrite (strip_padded pre post "Y"%char Hpre Hpost eq_refl).
  - intros Hn. destruct (lower (strip line) =? "y")%string eqn:E; [| done].
    destruct Hn. apply String.eqb_eq, lower_y in E.
    destruct (strip_split line) as (pre & post & Hpre & Hpost & Hl).
    exists pre, post. split; [done |]. split; [done |].
    destruct E as [E | E]; rewrite E in Hl; [by left | by right].
Qed.

(** ** The stamp of the backup *)

Lemma all_digits_app (a b : string) :
  all_digits (a +:+ b) = all_digits a && all_digits b.
Proof.
  induction a as [| c a IH]; [done |].
  change (String c a +:+ b) with (String c (a +:+ b)). simpl.
  by rewrite IH, andb_assoc.
Qed.

Lemma app_inj_length (a a' b b' : string) :
  String.length a = String.length a' ->
  a +:+ b = a' +:+ b' -> a = a' /\ b = b'.
Proof.
  revert a'. induction a as [| c a IH]; intros [| c' a'] Hl H;
    try discriminate.
  - done.
  - change (String c a +:+ b) with (String c (a +:+ b)) in H.
    change (String c' a' +:+ b') with (String c' (a' +:+ b')) in H.
    injection H as -> H. injection Hl as Hl.
    destruct (IH a' Hl H) as [-> ->]. done.
Qed.

(** Two digits for every value below 100, four for a year of four digits. *)
Lemma pad2_shape (z : Z) :
  0 <= z < 100 ->
  String.length (pad2 z) = 2%nat /\ all_digits (pad2 z) = true /\
  int_of_text (pad2 z) = z.
Proof.
  intros Hz.
  assert (H : forallb (fun n =>
                let s := pad2 (Z.of_nat n) in
                (String.length s =? 2)%nat && all_digits s
                && (int_of_text s =? Z.of_nat n))
              (seq 0 100) = true) by (vm_compute; reflexivity).
  rewrite forallb_forall in H. specialize (H (Z.to_nat z)).
  rewrite Z2Nat.id in H by lia.
  destruct (andb_prop _ _ (H ltac:(apply in_seq; lia))) as [H12 H3].
  destruct (andb_prop _ _ H12) as [H1 H2].
  split; [by apply Nat.eqb_eq |]. split; [done | by apply Z.eqb_eq].
Qed.

Lemma year_shape (z : Z) :
  1000 <= z <= 9999 ->
  String.length (str_int z) = 4%nat /\ all_digits (str_int z) = true.
Proof.
  intros Hz.
  assert (H : forallb (fun n =>
                let s := str_int (Z.of_nat n) in
                (String.length s =? 4)%nat && all_digits s)
              (seq (10 * 100) (90 * 100)) = true) by (vm_compute; reflexivity).
  rewrite forallb_forall in H. specialize (H (Z.to_nat z)).
  rewrite Z2Nat.id in H by lia.
  destruct (andb_prop _ _ (H ltac:(apply in_seq; lia))) as [H1 H2].
  split; [by apply Nat.eqb_eq | done].
Qed.

(** Reading back what [str] printed gives the number. *)
Lemma int_of_text_str_int (z : Z) : int_of_text (str_int z) = z.
Proof.
  unfold int_of_text, str_int. rewrite NilZero.isi.
  - apply DecimalZ.of_to.
  - destruct z; simpl; [discriminate | |]; intros [= H];
      by apply DecimalPos.Unsigned.to_uint_nonnil in H.
  - destruct z; simpl; [discriminate | |]; intros [= H];
      by apply DecimalPos.Unsigned.to_uint_nonnil in H.
Qed.

(** X16. For a calendar time with a year of four digits the backup is named
    after the file, a dot, a stamp of exactly 14 decimal digits, and
    ".bak". *)
Theorem backup_name_has_14_digit_stamp (filename : string) (t : tm) :
  valid_tm t ->
  exists stamp,
    backup_name filename t = filename +:+ "." +:+ stamp +:+ ".bak" /\
    String.length stamp = 14%nat /\ all_digits stamp = true.
Proof using.
  clear. intros [Hy Hm Hd HH HM HS].
  exists (strftime_YmdHMS t). split; [done |]. unfold strftime_YmdHMS.
  destruct (year_shape _ Hy) as [Ly Dy].
  destruct (pad2_shape (tm_mon t)) as (L1 & D1 & _); [lia |].
  destruct (pad2_shape (tm_mday t)) as (L2 & D2 & _); [lia |].
  destruct (pad2_shape (tm_hour t)) as (L3 & D3 & _); [lia |].
  destruct (pad2_shape (tm_min t)) as (L4 & D4 & _); [lia |].
  destruct (pad2_shape (tm_sec t)) as (L5 & D5 & _); [lia |].
  split.
  - rewrite !length_app, Ly, L1, L2, L3, L4, L5. reflexivity.
  - by rewrite !all_digits_app, Dy, D1, D2, D3, D4, D5.
Qed.

(** X17. Backups of one file made at two different calendar times, to the
    second, have different names. *)
Theorem backup_names_differ_across_seconds (filename : string) (t1 t2 : tm) :
  valid_tm t1 -> valid_tm t2 ->
  backup_name filename t1 = backup_name filename t2 ->
  t1 = t2.
Proof using.
  clear. intros [Hy1 Hm1 Hd1 HH1 HM1 HS1] [Hy2 Hm2 Hd2 HH2 HM2 HS2] H.
  apply backup_name_inj in H. unfold strftime_YmdHMS in H.
  destruct (year_shape _ Hy1) as [Ly1 _]. destruct (year_shape _ Hy2) as [Ly2 _].
  destruct (pad2_shape (tm_mon t1)) as (La1 & _ & Ia1); [lia |].
  destruct (pad2_shape (tm_mon t2)) as (La2 & _ & Ia2); [lia |].
  destruct (pad2_shape (tm_mday t1)) as (Lb1 & _ & Ib1); [lia |].
  destruct (pad2_shape (tm_mday t2)) as (Lb2 & _ & Ib2); [lia |].
  destruct (pad2_shape (tm_hour t1)) as (Lc1 & _ & Ic1); [lia |].
  destruct (pad2_shape (tm_hour t2)) as (Lc2 & _ & Ic2); [lia |].
  destruct (pad2_shape (tm_min t1)) as (Ld1 & _ & Id1); [lia |].
  destruct (pad2_shape (tm_min t2)) as (Ld2 & _ & Id2); [lia |].
  destruct (pad2_shape (tm_sec t1)) as (_ & _ & Ie1); [lia |].
  destruct (pad2_shape (tm_sec t2)) as (_ & _ & Ie2); [lia |].
  apply app_inj_length in H as [Ey H]; [| congruence].
  apply app_inj_length in H as [Ea H]; [| congruence].
  apply app_inj_length in H as [Eb H]; [| congruence].
  apply app_inj_length in H as [Ec H]; [| congruence].
  apply app_inj_length in H as [Ed Ee]; [| congruence].
  apply (f_equal int_of_text) in Ey, Ea, Eb, Ec, Ed, Ee.
  rewrite !int_of_text_str_int in Ey.
  rewrite Ia1, Ia2 in Ea. rewrite Ib1, Ib2 in Eb. rewrite Ic1, Ic2 in Ec.
  rewrite Id1, Id2 in Ed. rewrite Ie1, Ie2 in Ee.
  destruct t1, t2. simpl in *. congruence.
Qed.

End Program.

(** ** Worked examples

    The runs below use the sample data: [codefixer.py buggy.py] on a file
    holding [def f(x): return x+]. *)

Lemma sample_ready (answer : http_outcome) (typed : list string) :
  ready (sample_world (sample_server answer) typed) "buggy.py" sample_broken.
Proof.
  split.
  - exists (mkResponse 200 "{}"). by split.
  - by exists "codefixer.py", [].
  - reflexivity.
Defined.

Lemma confirm_backs_up_then_writes_witness :
  exists w',
    validate_and_save "buggy.py" full_fix
      (sample_world (sample_server (chat_answer full_fix_text_esc)) [" Y "])
    = (Ok tt, w') /\
    fs w' !! "buggy.py.20250314092653.bak" = Some sample_broken /\
    fs w' !! "buggy.py" = Some sample_fixed.
Proof.
  destruct (confirm_backs_up_then_writes "buggy.py" full_fix
              (sample_world (sample_server (chat_answer full_fix_text_esc)) [" Y "])
              " Y " [] sample_broken sample_fixed
              eq_refl eq_refl eq_refl eq_refl)
    as (w' & H1 & H2 & H3 & _).
  exists w'. split; [exact H1 |]. split; [exact H2 | exact H3].
Defined.

Lemma decline_leaves_files_witness :
  exists w',
    validate_and_save "buggy.py" full_fix
      (sample_world (sample_server (chat_answer full_fix_text_esc)) ["n"])
    = (Ok tt, w') /\
    fs w' = {[ "buggy.py" := sample_broken ]} /\ fs_log w' = [].
Proof.
  destruct (decline_leaves_files "buggy.py" full_fix
              (sample_world (sample_server (chat_answer full_fix_text_esc)) ["n"])
              "n" [] eq_refl ltac:(discriminate))
    as (w' & H1 & _ & H2 & H3).
  exists w'. split; [exact H1 |]. split; [exact H2 | exact H3].
Defined.

(** C2, as stated, fails: the line " y " is not "y" in any letter case, yet
    the run does not cancel: it ends with status 0, prints no cancellation
    notice, has renamed the file to a backup and written the fix. *)
Lemma padded_y_overwrites :
  let run := run_script sample_loads sample_error_msg plain_repr in
  let w := sample_world (sample_server (chat_answer full_fix_text_esc)) [" y "] in
  lower " y " <> "y" /\
  fst (run w) = 0 /\
  (("Operation cancelled." +:+ nl) ∉ stdout (snd (run w))) /\
  fs w !! "buggy.py" = Some sample_broken /\
  fs (snd (run w)) !! "buggy.py" = Some sample_fixed /\
  fs w !! "buggy.py.20250314092653.bak" = None /\
  fs (snd (run w)) !! "buggy.py.20250314092653.bak" = Some sample_broken.
Proof.
  cbv zeta. split; [discriminate |]. split; [by vm_compute |].
  split; [| by vm_compute].
  intros Hin. vm_compute in Hin.
  repeat (apply elem_of_cons in Hin as [Hin | Hin]; [discriminate |]).
  by apply elem_of_nil in Hin.
Qed.

Lemma confirmation_is_stripped_and_lowered_witness :
  let w := sample_world (sample_server (chat_answer full_fix_text_esc)) [" Y "] in
  validate_and_save "buggy.py" full_fix w
  = persist "buggy.py" full_fix (set_stdin [] (add_stdout confirm_prompt w)).
Proof.
  exact (proj1 (proj2 (proj2
    (confirmation_is_stripped_and_lowered "buggy.py" full_fix
       (sample_world (sample_server (chat_answer full_fix_text_esc)) [" Y "])
       " Y " [] eq_refl)))
    " " " " eq_refl eq_refl (or_intror eq_refl)).
Defined.

Lemma second_run_backup_witness :
  let w1 := sample_world (sample_server (chat_answer full_fix_text_esc)) ["y"] in
  let w1' := snd (validate_and_save "buggy.py" full_fix w1) in
  let w2 := mkWorld (fs w1') (fs_log w1') ["Y"] (stdout w1') (argv w1')
                    (mkTm 2025 3 14 9 26 54) (server w1') (requests w1') in
  fs (snd (validate_and_save "buggy.py" full_fix w2))
    !! "buggy.py.20250314092653.bak" = Some sample_broken.
Proof.
  intros w1 w1' w2.
  refine (proj1 (proj2
    (second_run_backup "buggy.py" full_fix full_fix w1 w2
       "y" "Y" [] [] sample_broken sample_fixed sample_fixed
       eq_refl eq_refl eq_refl eq_refl eq_refl eq_refl eq_refl eq_refl)) _).
  vm_compute. discriminate.
Defined.

(** C5, as stated, fails: two affirmative runs in the same second on the
    same file both end with status 0; after the first the backup holds the
    original content; after the second no file holds it any more. *)
Lemma same_second_backup_lost :
  let run := run_script sample_loads sample_error_msg plain_repr in
  let w1 := sample_world (sample_server (chat_answer full_fix_text_esc)) ["y"] in
  let w1' := snd (run w1) in
  let w2 := set_stdin ["y"] w1' in
  let w2' := snd (run w2) in
  fst (run w1) = 0 /\ fst (run w2) = 0 /\
  backup_name "buggy.py" (clock w1) = backup_name "buggy.py" (clock w2) /\
  fs w1' !! backup_name "buggy.py" (clock w1) = Some sample_broken /\
  forall p, fs w2' !! p <> Some sample_broken.
Proof.
  cbv zeta. split; [by vm_compute |]. split; [by vm_compute |].
  split; [reflexivity |]. split; [by vm_compute |].
  intros p.
  assert (E : fs (snd (run_script sample_loads sample_error_msg plain_repr
                (set_stdin ["y"]
                   (snd (run_script sample_loads sample_error_msg plain_repr
                      (sample_world (sample_server (chat_answer full_fix_text_esc))
                                    ["y"]))))))
              = <["buggy.py" := sample_fixed]>
                  (<["buggy.py.20250314092653.bak" := sample_fixed]> ∅))
    by (vm_compute; reflexivity).
  rewrite E. intros H.
  apply lookup_insert_Some in H as [[_ H] | [_ H]]; [discriminate |].
  apply lookup_insert_Some in H as [[_ H] | [_ H]]; [discriminate |].
  by rewrite lookup_empty in H.
Qed.

Lemma check_server_available_total_witness :
  exists b : bool,
    check_server_available (sample_world down_server [])
    = (Ok b, add_request health_request (sample_world down_server [])) /\
    b = false.
Proof.
  destruct (check_server_available_total (sample_world down_server []))
    as (b & H1 & _ & H2 & _).
  exists b. split; [exact H1 |]. exact (H2 "Connection refused" eq_refl).
Defined.

Lemma probe_false_exits_witness :
  exists w',
    run_script sample_loads sample_error_msg plain_repr
      (sample_world down_server ["y"]) = (1, w') /\
    requests w' = [health_request] /\
    fs w' = {[ "buggy.py" := sample_broken ]}.
Proof.
  destruct (probe_false_exits sample_loads sample_error_msg plain_repr
              (sample_world down_server ["y"])
              (add_request health_request (sample_world down_server ["y"]))
              eq_refl)
    as (w' & H1 & H2 & _ & H3 & _).
  exists w'. split; [exact H1 |]. split; [exact H2 | exact H3].
Defined.

Lemma api_error_exits_witness :
  let run := run_script sample_loads sample_error_msg plain_repr in
  let w := sample_world (sample_server (Answered (mkResponse 503 "busy"))) ["y"] in
  fst (run w) = 1 /\
  last (stdout (snd (run w)))
  = Some ("Error fixing code: API request failed: 503" +:+ nl +:+ "busy" +:+ nl) /\
  fs (snd (run w)) = fs w.
Proof.
  intros run w. subst run.
  destruct (api_error_exits sample_loads sample_error_msg plain_repr w
              "buggy.py" sample_broken (mkResponse 503 "busy")
              (sample_ready _ _) eq_refl ltac:(discriminate))
    as (_ & H1 & H2 & _).
  split; [by rewrite H1 |]. split; [by rewrite H1 | exact H2].
Defined.

Lemma malformed_content_exits_witness :
  exists w',
    run_script sample_loads sample_error_msg plain_repr
      (sample_world (sample_server (chat_answer no_choices_text_esc)) ["y"])
    = (1, w') /\
    fs w' = {[ "buggy.py" := sample_broken ]} /\ fs_log w' = [].
Proof.
  exact (malformed_content_exits sample_loads sample_error_msg plain_repr
           (sample_world (sample_server (chat_answer no_choices_text_esc)) ["y"])
           "buggy.py" sample_broken
           (mkResponse 200 (chat_body_text no_choices_text_esc))
           (chat_body no_choices_text)
           (JArr [JObj [("message", JObj [("content", JStr no_choices_text)])]])
           (JObj [("message", JObj [("content", JStr no_choices_text)])])
           (JObj [("content", JStr no_choices_text)])
           (JStr no_choices_text)
           (sample_ready _ _) eq_refl eq_refl eq_refl eq_refl eq_refl eq_refl eq_refl
           (no_fixed_code sample_loads no_choices_text no_choices eq_refl eq_refl)).
Defined.

Lemma misshapen_body_exits_witness :
  exists w',
    run_script sample_loads sample_error_msg plain_repr (sample_world
                  (sample_server (Answered (mkResponse 200 no_choices_text))) ["y"])
    = (1, w') /\
    fs w' = {[ "buggy.py" := sample_broken ]} /\ fs_log w' = [].
Proof.
  exact (misshapen_body_exits sample_loads sample_error_msg plain_repr
           (sample_world
              (sample_server (Answered (mkResponse 200 no_choices_text))) ["y"])
           "buggy.py" sample_broken (mkResponse 200 no_choices_text) no_choices
           (sample_ready _ _) eq_refl eq_refl eq_refl
           (no_choices_key [("error", JStr "overloaded")] eq_refl)).
Defined.

(** C3.  The payload of the specification's own example has the four
    required fields and no "original_code".  On it the report raises
    [KeyError] at [fix["original_code"]], whatever the world; the run prints
    the language, the error type and the heading of the original code, then
    the diagnostic, and exits with status 1 although "y" is typed: neither
    the fixed code nor the explanation is printed, and the file keeps its
    content. *)
Theorem report_fails_without_original_code :
  let run := run_script sample_loads sample_error_msg plain_repr in
  let w := sample_world (sample_server (chat_answer sample_fix_text_esc)) ["y"] in
  (has_field sample_fix "fixed_code" && has_field sample_fix "explanation"
   && has_field sample_fix "language" && has_field sample_fix "error_type"
   = true) /\
  has_field sample_fix "original_code" = false /\
  (forall (repr : json -> string) (v : world),
     fst (report repr sample_fix v) = Raise (KeyError (JStr "original_code"))) /\
  fst (run w) = 1 /\
  stdout (snd (run w))
  = [ nl +:+ "=== Code Fix Report ===" +:+ nl;
      "Language: python" +:+ nl;
      "Error Type: SyntaxError" +:+ nl;
      nl +:+ "Original Code:" +:+ nl;
      "Error fixing code: 'original_code'" +:+ nl ] /\
  stdin (snd (run w)) = ["y"] /\
  fs (snd (run w)) = fs w.
Proof.
  cbv zeta. repeat split; by vm_compute.
Qed.

Lemma sample_answers_with (typed : list string) :
  answers_with sample_loads
    (sample_world (sample_server (chat_answer full_fix_text_esc)) typed)
    sample_broken full_fix.
Proof.
  exists (mkResponse 200 (chat_body_text full_fix_text_esc)),
    (chat_body full_fix_text),
    (JArr [JObj [("message", JObj [("content", JStr full_fix_text)])]]),
    (JObj [("message", JObj [("content", JStr full_fix_text)])]),
    (JObj [("content", JStr full_fix_text)]),
    full_fix_text.
  repeat split.
Defined.

Lemma run_touches_only_target_and_backup_witness :
  fs (snd (run_script sample_loads sample_error_msg plain_repr
             (sample_world (sample_server (chat_answer full_fix_text_esc)) ["y"])))
    !! "notes.txt" = None.
Proof.
  apply (run_touches_only_target_and_backup sample_loads sample_error_msg
           plain_repr
           (sample_world (sample_server (chat_answer full_fix_text_esc)) ["y"])
           "notes.txt").
  intros filename [= <-]. split; discriminate.
Defined.

Lemma run_keeps_original_content_witness :
  let w := sample_world (sample_server (chat_answer full_fix_text_esc)) ["y"] in
  let w' := snd (run_script sample_loads sample_error_msg plain_repr w) in
  fs w' !! "buggy.py" = Some sample_broken \/
  fs w' !! backup_name "buggy.py" (clock w) = Some sample_broken.
Proof.
  exact (run_keeps_original_content sample_loads sample_error_msg plain_repr
           (sample_world (sample_server (chat_answer full_fix_text_esc)) ["y"])
           "buggy.py" sample_broken eq_refl eq_refl).
Defined.

Lemma run_without_input_fails_witness :
  let w := sample_world (sample_server (chat_answer full_fix_text_esc)) [] in
  let r := run_script sample_loads sample_error_msg plain_repr w in
  fst r = 1 /\ fs (snd r) = fs w /\ fs_log (snd r) = fs_log w.
Proof.
  exact (run_without_input_fails sample_loads sample_error_msg plain_repr
           (sample_world (sample_server (chat_answer full_fix_text_esc)) [])
           eq_refl).
Defined.

Lemma failed_write_leaves_empty_file_witness :
  exists e w',
    validate_and_save "buggy.py" (JObj [("fixed_code", JInt 42)])
      (sample_world (sample_server (chat_answer full_fix_text_esc)) ["y"])
    = (Raise e, w') /\
    fs w' !! "buggy.py" = Some "" /\
    fs w' !! "buggy.py.20250314092653.bak" = Some sample_broken.
Proof.
  destruct (failed_write_leaves_empty_file "buggy.py"
              (JObj [("fixed_code", JInt 42)])
              (sample_world (sample_server (chat_answer full_fix_text_esc)) ["y"])
              "y" [] sample_broken eq_refl eq_refl eq_refl
              ltac:(intros code; discriminate))
    as (e & w' & H1 & _ & H2 & H3 & _).
  exists e, w'. split; [exact H1 |]. split; [exact H2 | exact H3].
Defined.

Lemma missing_file_aborts_before_write_witness :
  fst (validate_and_save "gone.py" full_fix
         (sample_world (sample_server (chat_answer full_fix_text_esc)) ["y"]))
  = Raise (FileNotFoundError "gone.py" (Some "gone.py.20250314092653.bak")).
Proof.
  exact (f_equal fst (proj1
    (missing_file_aborts_before_write "gone.py" full_fix
       (sample_world (sample_server (chat_answer full_fix_text_esc)) ["y"])
       "y" [] eq_refl eq_refl eq_refl))).
Defined.

Lemma usage_error_exits_witness :
  let w := mkWorld {[ "buggy.py" := sample_broken ]} [] ["y"] []
             ["codefixer.py"] sample_clock
             (sample_server (chat_answer full_fix_text_esc)) [] in
  run_script sample_loads sample_error_msg plain_repr w
  = (1, add_stdout ("Usage: codefixer.py <filename>" +:+ nl)
          (add_request health_request w)).
Proof.
  exact (usage_error_exits sample_loads sample_error_msg plain_repr
           (mkWorld {[ "buggy.py" := sample_broken ]} [] ["y"] []
              ["codefixer.py"] sample_clock
              (sample_server (chat_answer full_fix_text_esc)) [])
           (mkResponse 200 "{}") eq_refl eq_refl ltac:(simpl; lia)).
Defined.

Lemma unreadable_file_exits_witness :
  let w := mkWorld {[ "buggy.py" := sample_broken ]} [] ["y"] []
             ["codefixer.py"; "gone.py"] sample_clock
             (sample_server (chat_answer full_fix_text_esc)) [] in
  fst (run_script sample_loads sample_error_msg plain_repr w) = 1 /\
  stdout (snd (run_script sample_loads sample_error_msg plain_repr w))
  = [ "Error reading file: [Errno 2] No such file or directory: 'gone.py'"
      +:+ nl ].
Proof.
  intros w.
  rewrite (unreadable_file_exits sample_loads sample_error_msg plain_repr w
             (mkResponse 200 "{}") "codefixer.py" "gone.py" []
             eq_refl eq_refl eq_refl eq_refl).
  split; reflexivity.
Defined.

Lemma transport_failure_exits_witness :
  let w := sample_world (sample_server (Failed "Read timed out.")) ["y"] in
  fst (run_script sample_loads sample_error_msg plain_repr w) = 1 /\
  stdout (snd (run_script sample_loads sample_error_msg plain_repr w))
  = [ "Error fixing code: Read timed out." +:+ nl ].
Proof.
  intros w.
  rewrite (transport_failure_exits sample_loads sample_error_msg plain_repr w
             "buggy.py" sample_broken "Read timed out."
             (sample_ready _ _) eq_refl).
  split; reflexivity.
Defined.

Lemma body_not_json_exits_witness :
  let w := sample_world
             (sample_server (Answered (mkResponse 200 not_json_text))) ["y"] in
  fst (run_script sample_loads sample_error_msg plain_repr w) = 1 /\
  fs (snd (run_script sample_loads sample_error_msg plain_repr w)) = fs w.
Proof.
  intros w.
  rewrite (body_not_json_exits sample_loads sample_error_msg plain_repr w
             "buggy.py" sample_broken (mkResponse 200 not_json_text)
             (sample_ready _ _) eq_refl eq_refl eq_refl).
  split; reflexivity.
Defined.

Lemma report_prints_in_order_witness :
  exists w',
    report plain_repr full_fix
      (sample_world (sample_server (chat_answer full_fix_text_esc)) ["y"])
    = (Ok tt, w') /\
    stdout w' = report_lines plain_repr (JStr "python") (JStr "SyntaxError")
                  (JStr sample_broken) (JStr sample_fixed)
                  (JStr "removed trailing operator").
Proof.
  destruct (report_prints_in_order plain_repr full_fix
              (sample_world (sample_server (chat_answer full_fix_text_esc)) ["y"])
              (JStr "python") (JStr "SyntaxError") (JStr sample_broken)
              (JStr sample_fixed) (JStr "removed trailing operator")
              eq_refl eq_refl eq_refl eq_refl eq_refl)
    as (w' & H1 & H2 & _).
  exists w'. split; [exact H1 | exact H2].
Defined.

Lemma confirmed_run_succeeds_witness :
  exists w',
    run_script sample_loads sample_error_msg plain_repr
      (sample_world (sample_server (chat_answer full_fix_text_esc)) [" Y "])
    = (0, w') /\
    fs w' = <["buggy.py" := sample_fixed]>
              (<["buggy.py.20250314092653.bak" := sample_broken]>
                 (delete "buggy.py" {[ "buggy.py" := sample_broken ]})) /\
    stdin w' = [].
Proof.
  destruct (confirmed_run_succeeds sample_loads sample_error_msg plain_repr
              (sample_world (sample_server (chat_answer full_fix_text_esc)) [" Y "])
              "buggy.py" sample_broken full_fix
              (JStr "python") (JStr "SyntaxError") (JStr sample_broken)
              (JStr "removed trailing operator") sample_fixed " Y " []
              (sample_ready _ _) (sample_answers_with _)
              eq_refl eq_refl eq_refl eq_refl eq_refl eq_refl eq_refl)
    as (w' & H1 & _ & _ & H2 & H3).
  exists w'. split; [exact H1 |]. split; [exact H2 | exact H3].
Defined.

Lemma declined_run_exits_zero_witness :
  exists w',
    run_script sample_loads sample_error_msg plain_repr
      (sample_world (sample_server (chat_answer full_fix_text_esc)) ["no"])
    = (0, w') /\
    fs w' = {[ "buggy.py" := sample_broken ]} /\ fs_log w' = [].
Proof.
  destruct (declined_run_exits_zero sample_loads sample_error_msg plain_repr
              (sample_world (sample_server (chat_answer full_fix_text_esc)) ["no"])
              "buggy.py" sample_broken full_fix
              (JStr "python") (JStr "SyntaxError") (JStr sample_broken)
              (JStr sample_fixed) (JStr "removed trailing operator") "no" []
              (sample_ready _ _) (sample_answers_with _)
              eq_refl eq_refl eq_refl eq_refl eq_refl eq_refl
              ltac:(discriminate))
    as (w' & H1 & _ & H2 & H3).
  exists w'. split; [exact H1 |]. split; [exact H2 | exact H3].
Defined.

Lemma accepted_lines_witness :
  let w := sample_world (sample_server (chat_answer full_fix_text_esc)) [" Y "] in
  validate_and_save "buggy.py" full_fix w
  = persist "buggy.py" full_fix (set_stdin [] (add_stdout confirm_prompt w)).
Proof.
  refine (proj1
    (accepted_lines "buggy.py" full_fix
       (sample_world (sample_server (chat_answer full_fix_text_esc)) [" Y "])
       " Y " [] eq_refl) _).
  exists " ", " ". split; [reflexivity |]. split; [reflexivity |]. by right.
Defined.

Lemma backup_name_has_14_digit_stamp_witness :
  exists stamp,
    backup_name "buggy.py" sample_clock = "buggy.py" +:+ "." +:+ stamp +:+ ".bak" /\
    String.length stamp = 14%nat /\ all_digits stamp = true.
Proof.
  apply (backup_name_has_14_digit_stamp "buggy.py" sample_clock).
  split; simpl; lia.
Defined.

Lemma backup_names_differ_across_seconds_witness :
  backup_name "buggy.py" sample_clock
  <> backup_name "buggy.py" (mkTm 2025 3 14 9 26 54).
Proof.
  intros H.
  apply (backup_names_differ_across_seconds "buggy.py" sample_clock
           (mkTm 2025 3 14 9 26 54)) in H; [discriminate | |];
    split; simpl; lia.
Defined.

(** C1, as stated, fails.  The answer carries a result with the five
    fields whose "fixed_code" is the number 42; the report prints it and
    "y" is typed.  The file is renamed to the backup and opened for
    writing, then the write raises: the run ends with status 1, the backup
    holds the original content, and the file is empty, which is not the
    "fixed_code" of the result. *)
Lemma number_fixed_code_empties_file :
  let w := sample_world (sample_server (chat_answer number_fix_text_esc)) ["y"] in
  let r := run_script number_loads sample_error_msg plain_repr w in
  lower (strip "y") = "y" /\
  stdin (snd r) = [] /\
  getitem number_fix "fixed_code" = Ok (JInt 42) /\
  fst r = 1 /\
  fs (snd r) !! "buggy.py.20250314092653.bak" = Some sample_broken /\
  fs (snd r) !! "buggy.py" = Some "" /\
  fs (snd r) !! "buggy.py" <> Some (py_str plain_repr (JInt 42)) /\
  fs_log (snd r) = [EvRename "buggy.py" "buggy.py.20250314092653.bak";
                    EvOpenW "buggy.py"] /\
  last (stdout (snd r))
  = Some ("Error fixing code: write() argument must be str, not int" +:+ nl).
Proof.
  cbv zeta. repeat split; by vm_compute.
Qed.

(** Reading translates the line ends; the file itself keeps them. *)
Example read_file_translates_line_ends :
  let w := mkWorld {[ "dos.py" := mixed_line_ends ]} [] [] []
             ["codefixer.py"; "dos.py"] sample_clock down_server [] in
  read_file "dos.py" w
  = (Ok ("a" +:+ nl +:+ "b" +:+ nl +:+ "c" +:+ nl), w).
Proof. reflexivity. Qed.
